(** * spotify-proxy: the worker's request handling, embedded and verified

    The worker of [src/src/types.d.ts] (the [fetch] entry point, the bearer-key
    gate [requireApiKey], the OAuth handlers [handleSetup] and
    [handleCallback], the data handlers and their helpers) is translated
    function by function.  The handlers are asynchronous and talk to a
    key-value namespace, to the upstream HTTP service, to the clock and to
    [Math.random]; here they run in a state-and-exception monad over a
    [World] that holds those four things together with a trace of the
    effects performed.

    Strings are JavaScript strings whose code units are all below 256, one
    [ascii] per code unit, so that [length], [slice], [startsWith],
    [charAt], [btoa] and [encodeURIComponent] act on them exactly as the
    JavaScript operations do. *)

From Stdlib Require Import ZArith NArith Ascii String List Bool Lia.
From stdpp Require Import base option gmap strings list fin_maps.

Local Open Scope string_scope.
Local Open Scope Z_scope.

(** ** JavaScript strings *)

Module JsString.

Definition chr (n : nat) : ascii := ascii_of_nat n.
Definition code (c : ascii) : nat := nat_of_ascii c.

(** The one-character string [c]. *)
Definition str1 (c : ascii) : string := String c EmptyString.

(** The quotation mark and the backslash, as one-character strings. *)
Definition dquote : string := str1 (chr 34).
Definition backslash : string := str1 (chr 92).

(** [s.startsWith(p)] *)
Fixpoint startsWith (s p : string) : bool :=
  match p, s with
  | EmptyString, _ => true
  | String _ _, EmptyString => false
  | String a p', String b s' => Ascii.eqb a b && startsWith s' p'
  end.

(** [s.slice(n)] for [0 <= n] *)
Fixpoint slice (s : string) (n : nat) : string :=
  match n, s with
  | O, _ => s
  | S _, EmptyString => EmptyString
  | S n', String _ s' => slice s' n'
  end.

(** [s.includes(p)] *)
Fixpoint includes (s p : string) : bool :=
  startsWith s p ||
  match s with
  | EmptyString => false
  | String _ s' => includes s' p
  end.

(** [s.charAt(i)]: the empty string when [i] is out of range. *)
Fixpoint charAt (s : string) (i : nat) : string :=
  match s, i with
  | EmptyString, _ => EmptyString
  | String c _, O => str1 c
  | String _ s', S i' => charAt s' i'
  end.

(** [!!s] for a string that may be [undefined] or [null] ([None]). *)
Definition truthy (s : option string) : bool :=
  match s with
  | Some (String _ _) => true
  | _ => false
  end.

(** [xs.join(sep)] *)
Fixpoint join (sep : string) (xs : list string) : string :=
  match xs with
  | [] => EmptyString
  | [x] => x
  | x :: rest => x +:+ sep +:+ join sep rest
  end.

Definition hexDigit (upper : bool) (n : nat) : ascii :=
  if (n <? 10)%nat then chr (48 + n)
  else chr ((if upper then 55 else 87) + n).

(** Two hexadecimal digits of a code unit. *)
Definition hex2 (upper : bool) (n : nat) : string :=
  String (hexDigit upper (n / 16)) (str1 (hexDigit upper (n mod 16))).

Definition isUpper (n : nat) : bool := (65 <=? n)%nat && (n <=? 90)%nat.
Definition isLower (n : nat) : bool := (97 <=? n)%nat && (n <=? 122)%nat.
Definition isDigit (n : nat) : bool := (48 <=? n)%nat && (n <=? 57)%nat.
Definition isAlnum (c : ascii) : bool :=
  isUpper (code c) || isLower (code c) || isDigit (code c).

Fixpoint allChars (p : ascii -> bool) (s : string) : bool :=
  match s with
  | EmptyString => true
  | String c s' => p c && allChars p s'
  end.

(** [s.toLowerCase()] on the ASCII letters; header names are matched
    through it. *)
Definition lowerChar (c : ascii) : ascii :=
  if isUpper (code c) then chr (code c + 32) else c.

Fixpoint toLowerCase (s : string) : string :=
  match s with
  | EmptyString => EmptyString
  | String c s' => String (lowerChar c) (toLowerCase s')
  end.

(** [encodeURIComponent]: the unreserved marks and the alphanumerics are
    kept, every other code unit is replaced by the percent-escapes of its
    UTF-8 encoding (one byte below 128, two bytes from 128 to 255). *)
Definition uriUnreserved (c : ascii) : bool :=
  isAlnum c ||
  existsb (Nat.eqb (code c)) [45; 95; 46; 33; 126; 42; 39; 40; 41]%nat.

Definition percent (n : nat) : string := String (chr 37) (hex2 true n).

Definition encodeChar (c : ascii) : string :=
  if uriUnreserved c then str1 c
  else if (code c <? 128)%nat then percent (code c)
  else percent (192 + code c / 64) +:+ percent (128 + code c mod 64).

Fixpoint encodeURIComponent (s : string) : string :=
  match s with
  | EmptyString => EmptyString
  | String c s' => encodeChar c +:+ encodeURIComponent s'
  end.

(** [btoa]: base 64 of the code units, with padding. *)
Definition b64alphabet : string :=
  "ABCDEFGHIJKLMNOPQRSTUVWXYZabcdefghijklmnopqrstuvwxyz0123456789+/".

Definition b64 (n : nat) : string := charAt b64alphabet (n mod 64).

Fixpoint btoa_units (l : list nat) : string :=
  match l with
  | [] => EmptyString
  | [a] => b64 (a / 4) +:+ b64 (a mod 4 * 16) +:+ "=="
  | [a; b] =>
      b64 (a / 4) +:+ b64 (a mod 4 * 16 + b / 16) +:+ b64 (b mod 16 * 4) +:+ "="
  | a :: b :: c :: rest =>
      b64 (a / 4) +:+ b64 (a mod 4 * 16 + b / 16) +:+
      b64 (b mod 16 * 4 + c / 64) +:+ b64 (c mod 64) +:+ btoa_units rest
  end.

Definition btoa (s : string) : string :=
  btoa_units (map code (list_ascii_of_string s)).

End JsString.

Import JsString.

(** ** JSON values *)

Module Json.

(** The values [JSON.parse] produces.  A number is kept as the text
    JavaScript prints for it ([String(n)]), which is also what
    [JSON.stringify] emits; zero, positive or negative, prints as [0]. *)
#[warnings="-register-all"]
Inductive t : Type :=
| JNull
| JBool (b : bool)
| JNum (repr : string)
| JStr (s : string)
| JArr (items : list t)
| JObj (fields : list (string * t)).

(** [!!v] *)
Definition truthy (v : t) : bool :=
  match v with
  | JNull => false
  | JBool b => b
  | JNum r => negb (String.eqb r "0")
  | JStr s => negb (String.eqb s EmptyString)
  | JArr _ | JObj _ => true
  end.

(** [v.name]: [None] is [undefined]. *)
Fixpoint field (name : string) (fields : list (string * t)) : option t :=
  match fields with
  | [] => None
  | (k, v) :: rest => if String.eqb k name then Some v else field name rest
  end.

Definition prop (v : t) (name : string) : option t :=
  match v with
  | JObj fields => field name fields
  | _ => None
  end.

(** String conversion, as a template literal performs it. *)
Fixpoint toString (v : t) : string :=
  match v with
  | JNull => "null"
  | JBool true => "true"
  | JBool false => "false"
  | JNum r => r
  | JStr s => s
  | JArr items =>
      join ","
        (map (fun x => match x with JNull => EmptyString | _ => toString x end)
             items)
  | JObj _ => "[object Object]"
  end.

Definition template (v : option t) : string :=
  match v with
  | None => "undefined"
  | Some x => toString x
  end.

(** The escape [JSON.stringify] writes for one code unit. *)
Definition escapeChar (c : ascii) : string :=
  let n := code c in
  if (n =? 34)%nat then backslash +:+ dquote
  else if (n =? 92)%nat then backslash +:+ backslash
  else if (n =? 8)%nat then backslash +:+ "b"
  else if (n =? 9)%nat then backslash +:+ "t"
  else if (n =? 10)%nat then backslash +:+ "n"
  else if (n =? 12)%nat then backslash +:+ "f"
  else if (n =? 13)%nat then backslash +:+ "r"
  else if (n <? 32)%nat then backslash +:+ "u00" +:+ hex2 false n
  else str1 c.

Fixpoint escape (s : string) : string :=
  match s with
  | EmptyString => EmptyString
  | String c s' => escapeChar c +:+ escape s'
  end.

Definition quote (s : string) : string := dquote +:+ escape s +:+ dquote.

Definition newline : string := str1 (chr 10).

(** [JSON.stringify(v, null, gap)], at the indentation [ind].  With an
    empty [gap] this is the compact [JSON.stringify(v)]. *)
Fixpoint stringifyAt (gap ind : string) (v : t) : string :=
  let inner := ind +:+ gap in
  let sep :=
    match gap with
    | EmptyString => ","
    | _ => "," +:+ newline +:+ inner
    end in
  let wrap (l r : string) (parts : list string) : string :=
    match parts, gap with
    | [], _ => l +:+ r
    | _, EmptyString => l +:+ join sep parts +:+ r
    | _, _ =>
        l +:+ newline +:+ inner +:+ join sep parts +:+ newline +:+ ind +:+ r
    end in
  let colon :=
    match gap with
    | EmptyString => ":"
    | _ => ": "
    end in
  match v with
  | JNull => "null"
  | JBool true => "true"
  | JBool false => "false"
  | JNum r => r
  | JStr s => quote s
  | JArr items => wrap "[" "]" (map (stringifyAt gap inner) items)
  | JObj fields =>
      wrap "{" "}"
        (map (fun kv => quote (fst kv) +:+ colon +:+ stringifyAt gap inner (snd kv))
             fields)
  end.

Definition stringify (v : t) : string := stringifyAt EmptyString EmptyString v.

Fixpoint spaces (n : nat) : string :=
  match n with
  | O => EmptyString
  | S n' => String (chr 32) (spaces n')
  end.

Definition stringifyIndent (v : t) (n : nat) : string :=
  stringifyAt (spaces n) EmptyString v.

End Json.

Import Json.

(** ** Requests, responses and the environment *)

(** [new URL(request.url)]: the parts of the request URL the worker reads.
    [searchParams] holds the decoded query pairs in order. *)
Record URL : Type := {
  origin : string;
  pathname : string;
  searchParams : list (string * string)
}.

(** [url.searchParams.get(name)]: the first value, [None] for [null]. *)
Fixpoint searchParams_get (params : list (string * string)) (name : string)
  : option string :=
  match params with
  | [] => None
  | (k, v) :: rest =>
      if String.eqb k name then Some v else searchParams_get rest name
  end.

(** [new URL(path, base).toString()] for an absolute [path]. *)
Definition URL_resolve (path : string) (base : URL) : string :=
  origin base +:+ path.

Definition Headers : Type := list (string * string).

(** [headers.get(name)]: header names are matched without regard to case. *)
Fixpoint headers_get (h : Headers) (name : string) : option string :=
  match h with
  | [] => None
  | (k, v) :: rest =>
      if String.eqb (toLowerCase k) (toLowerCase name) then Some v
      else headers_get rest name
  end.

Record Request : Type := {
  method : string;
  url : URL;
  headers : Headers
}.

(** The HTML documents of the worker are kept by name, with the values
    their templates interpolate; their markup is presentation only. *)
Inductive Page : Type :=
| RootPage (setupStatus nextAction nextActionText : string)
| SetupPage
| CredentialsPage (errorMessage : option string) (origin apiKey : string)
| OAuthSuccessPage.

Inductive Body : Type :=
| NoBody
| Text (s : string)
| Html (p : Page).

Record Response : Type := {
  status : Z;
  responseHeaders : Headers;
  body : Body
}.

(** The response that [new Response(body, { status, headers })] builds when
    it does not throw.  With the statuses that the source writes as
    constants (200, 400, 401, 404, 500) it never throws; where the status
    comes from the upstream the handlers go through [Response_new] below. *)
Definition newResponse (b : Body) (st : Z) (h : Headers) : Response :=
  {| status := st; responseHeaders := h; body := b |}.

(** *** The serialised URL of a redirect

    [Response.redirect] parses the URL it is given and answers with the
    serialisation of the parsed URL.  For an [http] or [https] URL the
    parser strips control characters and spaces at both ends and tabs and
    newlines everywhere, percent-encodes the query up to the first [#]
    with the special-query set and the fragment after it with the fragment
    set.  The part before the query is left as it stands: in the redirects
    of the worker it is a literal, or the origin of the request followed
    by a literal path. *)

Definition isTabOrNewline (c : ascii) : bool :=
  existsb (Nat.eqb (code c)) [9; 10; 13]%nat.

Definition isC0OrSpace (c : ascii) : bool := (code c <=? 32)%nat.

Fixpoint dropChars (p : ascii -> bool) (s : string) : string :=
  match s with
  | EmptyString => EmptyString
  | String c s' => if p c then dropChars p s' else String c (dropChars p s')
  end.

Fixpoint trimStart (p : ascii -> bool) (s : string) : string :=
  match s with
  | EmptyString => EmptyString
  | String c s' => if p c then trimStart p s' else s
  end.

Fixpoint trimEnd (p : ascii -> bool) (s : string) : string :=
  match s with
  | EmptyString => EmptyString
  | String c s' =>
      match trimEnd p s' with
      | EmptyString => if p c then EmptyString else str1 c
      | rest => String c rest
      end
  end.

(** The C0 control percent-encode set: the controls and everything above
    [~]. *)
Definition inC0ControlSet (c : ascii) : bool :=
  (code c <=? 31)%nat || (126 <? code c)%nat.

(** The fragment set adds space, the quotation mark, [<], [>] and the
    backquote. *)
Definition inFragmentSet (c : ascii) : bool :=
  inC0ControlSet c || existsb (Nat.eqb (code c)) [32; 34; 60; 62; 96]%nat.

(** The query set adds space, the quotation mark, [#], [<] and [>]; the
    special-query set adds the apostrophe. *)
Definition inSpecialQuerySet (c : ascii) : bool :=
  inC0ControlSet c || existsb (Nat.eqb (code c)) [32; 34; 35; 60; 62; 39]%nat.

(** The percent-escapes of the UTF-8 encoding of a code unit. *)
Definition utf8Percent (c : ascii) : string :=
  if (code c <? 128)%nat then percent (code c)
  else percent (192 + code c / 64) +:+ percent (128 + code c mod 64).

Fixpoint percentEncode (set : ascii -> bool) (s : string) : string :=
  match s with
  | EmptyString => EmptyString
  | String c s' =>
      (if set c then utf8Percent c else str1 c) +:+ percentEncode set s'
  end.

(** [s] up to the first code unit [sep], and what follows it if there is
    one. *)
Fixpoint cut (sep : nat) (s : string) : string * option string :=
  match s with
  | EmptyString => (EmptyString, None)
  | String c s' =>
      if (code c =? sep)%nat then (EmptyString, Some s')
      else let (before, after) := cut sep s' in (String c before, after)
  end.

Definition URL_reserialize (input : string) : string :=
  let input :=
    dropChars isTabOrNewline
      (trimEnd isC0OrSpace (trimStart isC0OrSpace input)) in
  let (beforeFragment, fragment) := cut 35 input in
  let (beforeQuery, query) := cut 63 beforeFragment in
  beforeQuery
  +:+ match query with
      | Some q => "?" +:+ percentEncode inSpecialQuerySet q
      | None => EmptyString
      end
  +:+ match fragment with
      | Some f => "#" +:+ percentEncode inFragmentSet f
      | None => EmptyString
      end.

(** [Response.redirect(url, status)] *)
Definition Response_redirect (target : string) (st : Z) : Response :=
  {| status := st;
     responseHeaders := [("Location", URL_reserialize target)];
     body := NoBody |}.

Record Env : Type := {
  SPOTIFY_CLIENT_ID : option string;
  SPOTIFY_CLIENT_SECRET : option string;
  API_KEY : option string;
  ENVIRONMENT : option string
}.

(** A string spliced into a template literal; [None] is [undefined]. *)
Definition splice (s : option string) : string := default "undefined" s.

Definition corsHeaders : Headers :=
  [ ("Access-Control-Allow-Origin", "*");
    ("Access-Control-Allow-Methods", "GET, POST, PUT, DELETE, OPTIONS");
    ("Access-Control-Allow-Headers", "Content-Type, Authorization") ].

Definition jsonHeaders : Headers :=
  ("Content-Type", "application/json") :: corsHeaders.

Definition htmlHeaders : Headers :=
  ("Content-Type", "text/html") :: corsHeaders.

(** ** The outside world *)

(** A call of the global [fetch] to the upstream service. *)
Record FetchRequest : Type := {
  fetchUrl : string;
  fetchMethod : string;
  fetchHeaders : Headers;
  fetchBody : list (string * string)
}.

Record FetchResponse : Type := {
  upstreamStatus : Z;
  statusText : string;
  upstreamBody : string
}.

(** [response.ok] *)
Definition ok (r : FetchResponse) : bool :=
  (200 <=? upstreamStatus r) && (upstreamStatus r <=? 299).

(** An entry of the key-value namespace: the value and the instant, in
    milliseconds, at which it expires. *)
Record Entry : Type := {
  value : string;
  expiration : option Z
}.

Definition live (now : Z) (e : Entry) : bool :=
  match expiration e with
  | None => true
  | Some t => now <? t
  end.

Inductive Event : Type :=
| KvGet (key : string)
| KvPut (key val : string) (expirationTtl : option Z)
| KvDelete (key : string)
| Fetch (req : FetchRequest)
| AuthGate.

(** [SPOTIFY_DATA] is the namespace, [clock] the current instant in
    milliseconds, [entropy] the 53-bit draws behind [Math.random] and
    [cursor] the number of draws made so far, [upstream] the answer of the
    streaming service to a call; [trace] lists the effects performed, the
    most recent first. *)
Record World : Type := {
  SPOTIFY_DATA : gmap string Entry;
  clock : Z;
  entropy : nat -> N;
  cursor : nat;
  upstream : FetchRequest -> FetchResponse;
  trace : list Event
}.

Definition set_data (f : gmap string Entry -> gmap string Entry) (w : World)
  : World :=
  {| SPOTIFY_DATA := f (SPOTIFY_DATA w); clock := clock w;
     entropy := entropy w; cursor := cursor w; upstream := upstream w;
     trace := trace w |}.

Definition emit (e : Event) (w : World) : World :=
  {| SPOTIFY_DATA := SPOTIFY_DATA w; clock := clock w;
     entropy := entropy w; cursor := cursor w; upstream := upstream w;
     trace := e :: trace w |}.

Definition advance (w : World) : World :=
  {| SPOTIFY_DATA := SPOTIFY_DATA w; clock := clock w;
     entropy := entropy w; cursor := S (cursor w); upstream := upstream w;
     trace := trace w |}.

(** What the namespace answers for a key: nothing when the key was never
    written, was deleted, or has expired. *)
Definition stored (w : World) (key : string) : option string :=
  match SPOTIFY_DATA w !! key with
  | Some e => if live (clock w) e then Some (value e) else None
  | None => None
  end.

(** ** Asynchronous computations *)

Inductive Outcome (A : Type) : Type :=
| Returned (a : A)
| Thrown (error : string).

Arguments Returned {A} a.
Arguments Thrown {A} error.

Definition Async (A : Type) : Type := World -> Outcome A * World.

Definition ret {A} (a : A) : Async A := fun w => (Returned a, w).

Definition throw {A} (error : string) : Async A := fun w => (Thrown error, w).

(** The statuses with which a response has no body. *)
Definition nullBodyStatus (st : Z) : bool :=
  existsb (Z.eqb st) [101; 103; 204; 205; 304].

(** [new Response(body, { status, headers })] with a status that is not a
    constant of the source: the constructor throws a [RangeError] for a
    status outside 200..599, and a [TypeError] when it is given a body
    together with a status that allows none. *)
Definition Response_new (b : Body) (st : Z) (h : Headers) : Async Response :=
  if negb ((200 <=? st) && (st <=? 599)) then throw "RangeError"
  else if match b with NoBody => false | _ => true end && nullBodyStatus st
       then throw "TypeError"
  else ret (newResponse b st h).

Definition bind {A B} (m : Async A) (k : A -> Async B) : Async B :=
  fun w =>
    match m w with
    | (Returned a, w') => k a w'
    | (Thrown e, w') => (Thrown e, w')
    end.

Notation "'let*' x ':=' m 'in' k" := (bind m (fun x => k))
  (at level 10, x name, m at level 100, k at level 200).

(** [try { m } catch (e) { handler(e) }] *)
Definition try_catch {A} (m : Async A) (handler : string -> Async A)
  : Async A :=
  fun w =>
    match m w with
    | (Returned a, w') => (Returned a, w')
    | (Thrown e, w') => handler e w'
    end.

(** [env.SPOTIFY_DATA.get(key)] *)
Definition kv_get (key : string) : Async (option string) :=
  fun w => (Returned (stored w key), emit (KvGet key) w).

(** [env.SPOTIFY_DATA.put(key, value, { expirationTtl })], the time to live
    in seconds. *)
Definition kv_put (key val : string) (expirationTtl : option Z) : Async unit :=
  fun w =>
    let e := {| value := val;
                expiration := (fun ttl => clock w + 1000 * ttl) <$> expirationTtl |} in
    (Returned tt, emit (KvPut key val expirationTtl) (set_data (insert key e) w)).

(** [env.SPOTIFY_DATA.delete(key)] *)
Definition kv_delete (key : string) : Async unit :=
  fun w => (Returned tt, emit (KvDelete key) (set_data (delete key) w)).

(** The global [fetch(url, init)] *)
Definition upstream_fetch (req : FetchRequest) : Async FetchResponse :=
  fun w => (Returned (upstream w req), emit (Fetch req) w).

(** The integer [m] rounded to 53 significant bits, to the nearest and to
    the even one of two nearest: the integer part of what the
    double-precision product leaves of it.  Below [2^53] nothing is lost. *)
Definition roundToDouble (m : N) : N :=
  let e := (N.log2 m - 52)%N in
  let q := (m / 2 ^ e)%N in
  let r := (m mod 2 ^ e)%N in
  let up := ((2 ^ e <? 2 * r) || ((2 ^ e =? 2 * r) && N.odd q))%N in
  ((if up then q + 1 else q) * 2 ^ e)%N.

(** [Math.floor(x * n)] for the double [x] that is [draw] (its low 53 bits)
    divided by [2^53]: the product of the two doubles is the exact product
    rounded, and scaling by a power of two loses nothing. *)
Definition pickIndex (draw : N) (n : nat) : nat :=
  N.to_nat (roundToDouble ((draw mod 2 ^ 53) * N.of_nat n) / 2 ^ 53)%N.

(** [Math.floor(Math.random() * n)]: [Math.random()] is the next draw
    divided by [2^53]. *)
Definition random_below (n : nat) : Async nat :=
  fun w => (Returned (pickIndex (entropy w (cursor w)) n), advance w).

(** Entry into a function whose calls the trace records. *)
Definition mark (e : Event) : Async unit := fun w => (Returned tt, emit e w).

(** [Date.now()] *)
Definition Date_now : Async Z := fun w => (Returned (clock w), w).

(** ** The worker *)

Section Worker.

(** Two services of the JavaScript runtime stay parameters: [JSON.parse],
    which answers [None] where it throws a [SyntaxError], and the printing
    of an instant by [Date.prototype.toISOString]. *)
Variable JSON_parse : string -> option Json.t.
Variable toISOString : Z -> string.

(** [await response.json()] *)
Definition response_json (r : FetchResponse) : Async Json.t :=
  match JSON_parse (upstreamBody r) with
  | Some data => ret data
  | None => throw "SyntaxError"
  end.

(** *** Utility functions *)

Definition alphanumericCharset : string :=
  "ABCDEFGHIJKLMNOPQRSTUVWXYZabcdefghijklmnopqrstuvwxyz0123456789".

Definition apiKeyCharset : string :=
  "ABCDEFGHIJKLMNOPQRSTUVWXYZabcdefghijklmnopqrstuvwxyz0123456789-_".

(** The loop [for (let i = 0; i < length; i++) result += charset.charAt(...)],
    with [n] iterations left. *)
Fixpoint randomChars (charset : string) (n : nat) (result : string)
  : Async string :=
  match n with
  | O => ret result
  | S n' =>
      let* i := random_below (String.length charset) in
      randomChars charset n' (result +:+ charAt charset i)
  end.

Definition generateRandomString (length : nat) : Async string :=
  randomChars alphanumericCharset length EmptyString.

Definition generateSecureApiKey : Async string :=
  randomChars apiKeyCharset 64 EmptyString.

Inductive ExchangeResult : Type :=
| ExchangeFailed (error : string)
| ExchangeSucceeded (data : Json.t).

Definition tokenEndpoint : string := "https://accounts.spotify.com/api/token".

(** The POST that [exchangeCodeForTokens] sends. *)
Definition tokenRequest (code : string) (callbackUrl : URL) (env : Env)
  : FetchRequest :=
  let redirectUri := origin callbackUrl +:+ "/callback" in
  {| fetchUrl := tokenEndpoint;
     fetchMethod := "POST";
     fetchHeaders :=
       [ ("Content-Type", "application/x-www-form-urlencoded");
         ("Authorization",
          "Basic " +:+
          btoa (splice (SPOTIFY_CLIENT_ID env) +:+ ":" +:+
                splice (SPOTIFY_CLIENT_SECRET env))) ];
     fetchBody :=
       [ ("grant_type", "authorization_code");
         ("code", code);
         ("redirect_uri", redirectUri) ] |}.

Definition exchangeCodeForTokens (code : string) (callbackUrl : URL) (env : Env)
  : Async ExchangeResult :=
  if negb (JsString.truthy (SPOTIFY_CLIENT_ID env))
     || negb (JsString.truthy (SPOTIFY_CLIENT_SECRET env))
  then
    ret (ExchangeFailed
           "No Spotify credentials configured. Please complete setup first.")
  else
    let* response := upstream_fetch (tokenRequest code callbackUrl env) in
    if negb (ok response) then
      ret (ExchangeFailed ("Token exchange failed: " +:+ statusText response))
    else
      let* data := response_json response in
      ret (ExchangeSucceeded data).

(** [tokensJson ? JSON.parse(tokensJson) : null] *)
Definition getStoredTokens (env : Env) : Async Json.t :=
  let* tokensJson := kv_get "spotify_tokens" in
  if JsString.truthy tokensJson then
    match JSON_parse (splice tokensJson) with
    | Some tokens => ret tokens
    | None => throw "SyntaxError"
    end
  else ret JNull.

Definition apiRequest (endpoint accessToken : string) : FetchRequest :=
  {| fetchUrl := "https://api.spotify.com" +:+ endpoint;
     fetchMethod := "GET";
     fetchHeaders :=
       [ ("Authorization", "Bearer " +:+ accessToken);
         ("Content-Type", "application/json") ];
     fetchBody := [] |}.

Definition callSpotifyAPI (endpoint accessToken : string) : Async FetchResponse :=
  upstream_fetch (apiRequest endpoint accessToken).

Definition getSetupHTML : Async Page := ret SetupPage.

Definition getCredentialsHTML (errorMessage : option string)
  (requestUrl : option URL) : Async Page :=
  let origin :=
    match requestUrl with
    | Some u => origin u
    | None => "https://your-worker.workers.dev"
    end in
  let* apiKey := generateSecureApiKey in
  ret (CredentialsPage errorMessage origin apiKey).

(** *** Authentication *)

Definition errorBody (message : string) : Body :=
  Text (stringify (JObj [("error", JStr message)])).

(** The gate.  Its first line is not in the source: it records in the trace
    that the gate has been entered. *)
Definition requireApiKey (request : Request) (env : Env)
  : Async (option Response) :=
   let* _ := mark AuthGate in
   let authHeader := headers_get (headers request) "Authorization" in
   if negb (JsString.truthy authHeader) then
     ret (Some (newResponse
       (errorBody "Missing Authorization header. Include 'Authorization: Bearer YOUR_API_KEY' in your request.")
       401 jsonHeaders))
   else
   let authHeader := splice authHeader in
   if negb (startsWith authHeader "Bearer ") then
     ret (Some (newResponse
       (errorBody "Invalid Authorization header format. Use 'Authorization: Bearer YOUR_API_KEY'.")
       401 jsonHeaders))
   else
   let providedApiKey := slice authHeader 7 in
   if negb (JsString.truthy (API_KEY env)) then
     ret (Some (newResponse
       (errorBody "API key not configured. Please set up via Cloudflare dashboard.")
       500 jsonHeaders))
   else
   if negb (String.eqb providedApiKey (splice (API_KEY env))) then
     ret (Some (newResponse (errorBody "Invalid API key.") 401 jsonHeaders))
   else
     ret None.

(** *** Handlers *)

Definition hasCredentials (env : Env) : bool :=
  JsString.truthy (SPOTIFY_CLIENT_ID env)
  && JsString.truthy (SPOTIFY_CLIENT_SECRET env).

Definition handleRoot (request : Request) (env : Env) : Async Response :=
  let hasApiKey := JsString.truthy (API_KEY env) in
  let hasSpotifyCredentials := hasCredentials env in
  let* storedTokens := getStoredTokens env in
  if negb hasApiKey || negb hasSpotifyCredentials then
    ret (Response_redirect (URL_resolve "/credentials" (url request)) 302)
  else
    let page :=
      if hasSpotifyCredentials then
        if Json.truthy storedTokens
        then RootPage "complete" "/now-playing" "View Now Playing"
        else RootPage "credentials_only" "/setup" "Connect Spotify Account"
      else RootPage "not_started" "/credentials" "Setup Credentials" in
    ret (newResponse (Html page) 200 htmlHeaders).

Definition oauthScope : string :=
  "user-read-currently-playing user-read-recently-played user-read-playback-state".

Definition stateKey (state : string) : string := "oauth_state_" +:+ state.

Definition authorizeUrl (env : Env) (redirectUri state : string) : string :=
  "https://accounts.spotify.com/authorize?" +:+
  "response_type=code&" +:+
  "client_id=" +:+ splice (SPOTIFY_CLIENT_ID env) +:+ "&" +:+
  "scope=" +:+ encodeURIComponent oauthScope +:+ "&" +:+
  "redirect_uri=" +:+ encodeURIComponent redirectUri +:+ "&" +:+
  "state=" +:+ state.

Definition handleSetup (request : Request) (env : Env) : Async Response :=
  let hasSpotifyCredentials := hasCredentials env in
  if negb hasSpotifyCredentials then
    ret (Response_redirect (URL_resolve "/credentials" (url request)) 302)
  else if String.eqb (method request) "POST" then
    let redirectUri := origin (url request) +:+ "/callback" in
    let* state := generateRandomString 16 in
    let* _ := kv_put (stateKey state) "pending" (Some 600) in
    let authUrl := authorizeUrl env redirectUri state in
    ret (Response_redirect authUrl 302)
  else
    let* html := getSetupHTML in
    ret (newResponse (Html html) 200 htmlHeaders).

Definition handleCredentials (request : Request) (env : Env) : Async Response :=
  let* html := getCredentialsHTML None (Some (url request)) in
  ret (newResponse (Html html) 200 htmlHeaders).

Definition handleCallback (request : Request) (env : Env) : Async Response :=
  let url := url request in
  let code := searchParams_get (searchParams url) "code" in
  let state := searchParams_get (searchParams url) "state" in
  let error := searchParams_get (searchParams url) "error" in
  if JsString.truthy error then
    ret (newResponse (Text ("OAuth Error: " +:+ splice error)) 400 [])
  else if negb (JsString.truthy code) || negb (JsString.truthy state) then
    ret (newResponse (Text "Missing authorization code or state") 400 [])
  else
    let code := splice code in
    let state := splice state in
    let* storedState := kv_get (stateKey state) in
    if negb (JsString.truthy storedState) then
      ret (newResponse (Text "Invalid or expired state parameter") 400 [])
    else
      let* tokenResponse := exchangeCodeForTokens code url env in
      match tokenResponse with
      | ExchangeFailed error =>
          ret (newResponse (Text ("Token exchange failed: " +:+ error)) 400 [])
      | ExchangeSucceeded data =>
          let* _ := kv_put "spotify_tokens" (stringify data) (Some 3600) in
          let* _ := kv_delete (stateKey state) in
          ret (newResponse (Html OAuthSuccessPage) 200 htmlHeaders)
      end.

Definition noTokensResponse : Response :=
  newResponse
    (errorBody "No valid tokens found. Please complete OAuth setup first.")
    401 jsonHeaders.

Definition handleNowPlaying (request : Request) (env : Env) : Async Response :=
  let* tokens := getStoredTokens env in
  if negb (Json.truthy tokens) then ret noTokensResponse
  else
    let* spotifyResponse :=
      callSpotifyAPI "/v1/me/player/currently-playing"
        (template (prop tokens "access_token")) in
    if upstreamStatus spotifyResponse =? 204 then
      ret (newResponse
             (Text (stringify
                      (JObj [ ("playing", JBool false);
                              ("message", JStr "No track currently playing") ])))
             200 jsonHeaders)
    else if negb (ok spotifyResponse) then
      Response_new (errorBody "Failed to fetch current track")
        (upstreamStatus spotifyResponse) jsonHeaders
    else
      let* data := response_json spotifyResponse in
      ret (newResponse (Text (stringify data)) 200 jsonHeaders).

Definition handleRecent (request : Request) (env : Env) : Async Response :=
  let* tokens := getStoredTokens env in
  if negb (Json.truthy tokens) then ret noTokensResponse
  else
    let* spotifyResponse :=
      callSpotifyAPI "/v1/me/player/recently-played?limit=10"
        (template (prop tokens "access_token")) in
    if negb (ok spotifyResponse) then
      Response_new (errorBody "Failed to fetch recent tracks")
        (upstreamStatus spotifyResponse) jsonHeaders
    else
      let* data := response_json spotifyResponse in
      ret (newResponse (Text (stringify data)) 200 jsonHeaders).

Definition handleHealth (request : Request) (env : Env) : Async Response :=
  let* tokens := getStoredTokens env in
  let hasValidCredentials := hasCredentials env in
  let hasValidTokens :=
    match tokens with
    | JNull => false
    | _ => true
    end in
  let hasApiKey := JsString.truthy (API_KEY env) in
  let* now := Date_now in
  let health :=
    JObj
      [ ("status", JStr "healthy");
        ("timestamp", JStr (toISOString now));
        ("environment",
         JStr (if JsString.truthy (ENVIRONMENT env)
               then splice (ENVIRONMENT env) else "unknown"));
        ("api_key_configured", JBool hasApiKey);
        ("credentials_configured", JBool hasValidCredentials);
        ("oauth_configured", JBool hasValidTokens);
        ("setup_complete",
         JBool (hasApiKey && hasValidCredentials && hasValidTokens));
        ("next_step",
         JStr (if negb hasApiKey then
                 "Configure secrets (API key + Spotify credentials) at /credentials"
               else if negb hasValidCredentials then
                 "Configure Spotify credentials at /credentials"
               else if negb hasValidTokens then
                 "Complete OAuth setup at /setup"
               else "Ready to use API endpoints"));
        ("endpoints",
         JObj [ ("home", JStr "/");
                ("credentials", JStr "/credentials");
                ("setup", JStr "/setup");
                ("callback", JStr "/callback");
                ("now_playing", JStr "/now-playing");
                ("recent", JStr "/recent");
                ("health", JStr "/health") ]) ] in
  ret (newResponse (Text (stringifyIndent health 2)) 200 jsonHeaders).

(** *** The entry point *)

Definition publicEndpoints : list string :=
  ["/health"; "/credentials"; "/setup"; "/callback"].

(** [xs.includes(x)] on an array of strings *)
Definition array_includes (xs : list string) (x : string) : bool :=
  existsb (String.eqb x) xs.

(** The [switch (pathname)] of [fetch]. *)
Definition route (request : Request) (env : Env) : Async Response :=
  let pathname := pathname (url request) in
  if String.eqb pathname "/" then handleRoot request env
  else if String.eqb pathname "/setup" then handleSetup request env
  else if String.eqb pathname "/credentials" then handleCredentials request env
  else if String.eqb pathname "/callback" then handleCallback request env
  else if String.eqb pathname "/now-playing" then handleNowPlaying request env
  else if String.eqb pathname "/recent" then handleRecent request env
  else if String.eqb pathname "/health" then handleHealth request env
  else ret (newResponse (Text "Not Found") 404 corsHeaders).

(** [fetch] awaits the gate inside its [try] block, so an exception of the
    gate reaches the [catch]; the handler's promise is returned from the
    block without [await], so the block has been left by the time the
    handler throws and the exception is the outcome of [fetch]. *)
Definition fetch (request : Request) (env : Env) : Async Response :=
  let pathname := pathname (url request) in
  if String.eqb (method request) "OPTIONS" then
    ret (newResponse NoBody 200 corsHeaders)
  else
    let* step :=
      try_catch
        (let* authResult :=
           if negb (array_includes publicEndpoints pathname)
           then requireApiKey request env
           else ret None in
         match authResult with
         | Some denied => ret (inl denied)
         | None => ret (inr (route request env))
         end)
        (fun _ =>
           ret (inl (newResponse (Text "Internal Server Error") 500 corsHeaders))) in
    match step with
    | inl response => ret response
    | inr handler => handler
    end.

End Worker.

(** ** Vocabulary of the properties *)

(** A call to the upstream service. *)
Definition isFetch (e : Event) : bool :=
  match e with
  | Fetch _ => true
  | _ => false
  end.

(** A write to, or a deletion from, the namespace. *)
Definition isMutation (e : Event) : bool :=
  match e with
  | KvPut _ _ _ | KvDelete _ => true
  | _ => false
  end.

Definition isAuthGate (e : Event) : bool :=
  match e with
  | AuthGate => true
  | _ => false
  end.

Definition query (request : Request) (name : string) : option string :=
  searchParams_get (searchParams (url request)) name.

(** The code and the state a callback carries, as [handleCallback] uses them
    once it has found both present. *)
Definition callbackCode (request : Request) : string :=
  splice (query request "code").

Definition callbackState (request : Request) : string :=
  splice (query request "state").

(** The guards of [handleCallback] and of [exchangeCodeForTokens] that stand
    before the POST to the token endpoint: no [error] parameter, a code and a
    state, a stored value for the state, both client credentials.  The
    exchange is attempted exactly when they all pass (lemma
    [exchange_attempted_iff_fetch]). *)
Definition exchangeAttempted (request : Request) (env : Env) (w : World) : bool :=
  negb (JsString.truthy (query request "error"))
  && JsString.truthy (query request "code")
  && JsString.truthy (query request "state")
  && JsString.truthy (stored w (stateKey (callbackState request)))
  && hasCredentials env.

(** The upstream's answer to the token request of a callback. *)
Definition exchangeAnswer (request : Request) (env : Env) (w : World)
  : FetchResponse :=
  upstream w (tokenRequest (callbackCode request) (url request) env).

(** The three ways in which a request fails to present the key [key]: no
    [Authorization] header, one without the prefix, one with another key. *)
Definition lacksValidBearer (request : Request) (key : string) : bool :=
  match headers_get (headers request) "Authorization" with
  | None => true
  | Some h => negb (startsWith h "Bearer ") || negb (String.eqb (slice h 7) key)
  end.

(** The record of the tokens that a successful callback leaves. *)
Definition tokenRecord (w : World) (data : Json.t) : Entry :=
  {| value := stringify data; expiration := Some (clock w + 1000 * 3600) |}.

(** The entry that [handleSetup] writes for a fresh state. *)
Definition pendingState (w : World) : Entry :=
  {| value := "pending"; expiration := Some (clock w + 1000 * 600) |}.

(** [handleCallback] path by path: the outcome and the world it leaves
    (lemma [handleCallback_outcome]). *)
Definition callbackOutcome (JSON_parse : string -> option Json.t)
  (request : Request) (env : Env) (w : World) : Outcome Response * World :=
  let key := stateKey (callbackState request) in
  let answer := exchangeAnswer request env w in
  let w1 := emit (KvGet key) w in
  let w2 := emit (Fetch (tokenRequest (callbackCode request) (url request) env)) w1 in
  if JsString.truthy (query request "error") then
    (Returned (newResponse (Text ("OAuth Error: " +:+ splice (query request "error")))
                 400 []), w)
  else if negb (JsString.truthy (query request "code"))
          || negb (JsString.truthy (query request "state")) then
    (Returned (newResponse (Text "Missing authorization code or state") 400 []), w)
  else if negb (JsString.truthy (stored w key)) then
    (Returned (newResponse (Text "Invalid or expired state parameter") 400 []), w1)
  else if negb (hasCredentials env) then
    (Returned (newResponse
       (Text ("Token exchange failed: " +:+
              "No Spotify credentials configured. Please complete setup first."))
       400 []), w1)
  else if negb (ok answer) then
    (Returned (newResponse
       (Text ("Token exchange failed: " +:+ "Token exchange failed: " +:+
              statusText answer)) 400 []), w2)
  else
    match JSON_parse (upstreamBody answer) with
    | None => (Thrown "SyntaxError", w2)
    | Some data =>
        (Returned (newResponse (Html OAuthSuccessPage) 200 htmlHeaders),
         emit (KvDelete key)
           (set_data (delete key)
              (emit (KvPut "spotify_tokens" (stringify data) (Some 3600))
                 (set_data (insert "spotify_tokens" (tokenRecord w data)) w2))))
    end.

(** The number of reads of [key] among [events]. *)
Fixpoint readsOf (key : string) (events : list Event) : nat :=
  match events with
  | [] => O
  | KvGet k :: rest =>
      if String.eqb k key then S (readsOf key rest) else readsOf key rest
  | _ :: rest => readsOf key rest
  end.

(** ** Sample data *)

Definition sampleTokens : Json.t :=
  JObj [ ("access_token", JStr "BQDx8");
         ("token_type", JStr "Bearer");
         ("expires_in", JNum "3600");
         ("refresh_token", JStr "AQCy2") ].

(** A parser that knows the text of [sampleTokens] and nothing else. *)
Definition sampleParse (text : string) : option Json.t :=
  if String.eqb text (stringify sampleTokens) then Some sampleTokens else None.

Definition samplePrint (instant : Z) : string := "2024-05-01T12:00:00.000Z".

Definition sampleEnv : Env :=
  {| SPOTIFY_CLIENT_ID := Some "0a1b2c3d";
     SPOTIFY_CLIENT_SECRET := Some "s3cr3t";
     API_KEY := Some "key-1234";
     ENVIRONMENT := Some "production" |}.

Definition sampleRequest (verb path : string) (params : list (string * string))
  (h : Headers) : Request :=
  {| method := verb;
     url := {| origin := "https://proxy.example.workers.dev";
               pathname := path;
               searchParams := params |};
     headers := h |}.

(** An upstream that grants every token request and has nothing playing. *)
Definition upstreamGrants (req : FetchRequest) : FetchResponse :=
  if String.eqb (fetchUrl req) tokenEndpoint then
    {| upstreamStatus := 200; statusText := "OK";
       upstreamBody := stringify sampleTokens |}
  else
    {| upstreamStatus := 204; statusText := "No Content";
       upstreamBody := EmptyString |}.

(** An upstream that refuses every call. *)
Definition upstreamRefuses (req : FetchRequest) : FetchResponse :=
  {| upstreamStatus := 400; statusText := "Bad Request";
     upstreamBody := EmptyString |}.

Definition sampleDraws (i : nat) : N := (N.of_nat i * 1234567890123457 + 99991)%N.

(** A world in which [data] is stored and nothing has happened yet. *)
Definition sampleWorld (data : gmap string Entry)
  (up : FetchRequest -> FetchResponse) : World :=
  {| SPOTIFY_DATA := data; clock := 1000; entropy := sampleDraws; cursor := 0;
     upstream := up; trace := [] |}.

(** The namespace after an [Initiate] that drew the state [xyz]. *)
Definition pendingXyz : gmap string Entry :=
  {[ stateKey "xyz" := {| value := "pending"; expiration := Some 601000 |} ]}.

Definition callbackXyz : Request :=
  sampleRequest "GET" "/callback" [("code", "AQB7"); ("state", "xyz")] [].

Definition callbackForged : Request :=
  sampleRequest "GET" "/callback" [("code", "AQB7"); ("state", "forged")] [].

(** The three refusals of the gate for want of a valid key. *)
Definition missingHeaderMessage : string :=
  "Missing Authorization header. Include 'Authorization: Bearer YOUR_API_KEY' in your request.".

Definition badFormatMessage : string :=
  "Invalid Authorization header format. Use 'Authorization: Bearer YOUR_API_KEY'.".

Definition invalidKeyMessage : string := "Invalid API key.".

Definition refusals : list string :=
  [missingHeaderMessage; badFormatMessage; invalidKeyMessage].

(** The refusal that the header of a request draws when the request fails
    to present the configured key. *)
Definition refusalFor (request : Request) : string :=
  match headers_get (headers request) "Authorization" with
  | None | Some EmptyString => missingHeaderMessage
  | Some h =>
      if startsWith h "Bearer " then invalidKeyMessage else badFormatMessage
  end.

(** The answer of the gate when no key is configured. *)
Definition notConfiguredResponse : Response :=
  newResponse
    (errorBody "API key not configured. Please set up via Cloudflare dashboard.")
    500 jsonHeaders.

Definition emptyWorld : World := sampleWorld ∅ upstreamGrants.

(** A preflight for a protected path, without credentials. *)
Definition preflightNowPlaying : Request :=
  sampleRequest "OPTIONS" "/now-playing" [] [].

(** A request for a protected path that presents a wrong key. *)
Definition wrongKeyRequest : Request :=
  sampleRequest "GET" "/now-playing" [] [("Authorization", "Bearer guess")].

(** A request for a protected path with Basic credentials. *)
Definition basicAuthRequest : Request :=
  sampleRequest "GET" "/now-playing" [] [("Authorization", "Basic dXNlcjpwdw==")].

(** A request for a protected path with a bearer key. *)
Definition bearerRequest (path key : string) : Request :=
  sampleRequest "GET" path [] [("authorization", "Bearer " +:+ key)].

Definition envWithKey (key : option string) : Env :=
  {| SPOTIFY_CLIENT_ID := Some "0a1b2c3d";
     SPOTIFY_CLIENT_SECRET := Some "s3cr3t";
     API_KEY := key;
     ENVIRONMENT := None |}.

(** [m] performs only effects that [allowed] admits, in whatever world it
    is run. *)
Definition emitsOnly {A} (allowed : Event -> bool) (m : Async A) : Prop :=
  forall w, exists events,
    trace (snd (m w)) = (events ++ trace w)%list /\
    forallb allowed events = true.

(** Every event except the entry into the gate. *)
Definition besidesGate (e : Event) : bool := negb (isAuthGate e).

(** Two requests with the same method and the same URL: they may differ in
    their headers, the [Authorization] header among them. *)
Definition sameButHeaders (r1 r2 : Request) : Prop :=
  method r1 = method r2 /\ url r1 = url r2.

(** A request presents the key [key] as its bearer credential. *)
Definition presentsKey (request : Request) (key : string) : Prop :=
  headers_get (headers request) "Authorization" = Some ("Bearer " +:+ key).

(** The call [handleNowPlaying] makes upstream on behalf of [tokens]. *)
Definition nowPlayingCall (tokens : Json.t) : FetchRequest :=
  apiRequest "/v1/me/player/currently-playing"
    (template (prop tokens "access_token")).

(** The body that reports an idle player. *)
Definition notPlayingText : string :=
  stringify (JObj [ ("playing", JBool false);
                    ("message", JStr "No track currently playing") ]).

(** The fragment [playing:false] as it stands in a JSON text, the name
    between quotation marks. *)
Definition playingFalse : string := dquote +:+ "playing" +:+ dquote +:+ ":false".

(** The namespace after a successful callback. *)
Definition tokensStored : gmap string Entry :=
  {[ "spotify_tokens" :=
       {| value := stringify sampleTokens; expiration := Some 3601000 |} ]}.

Definition setupPost : Request := sampleRequest "POST" "/setup" [] [].

Definition healthPlain : Request := sampleRequest "GET" "/health" [] [].

Definition healthWithKey : Request :=
  sampleRequest "GET" "/health" [] [("Authorization", "Bearer anything")].

(** Another value under a state key than the marker [handleSetup] writes. *)
Definition otherMarker : Entry := {| value := "used"; expiration := None |}.

(** *** The state of an initiation *)


(** The index that [draw] would pick among [n] if the product were taken
    exactly: the integer part of [draw / 2^53 * n]. *)
Definition exactIndex (draw : N) (n : nat) : nat :=
  N.to_nat ((draw mod 2 ^ 53) * N.of_nat n / 2 ^ 53)%N.

(** The exact product lies at least [n / 2^53] below the next integer: no
    rounding carries it there. *)
Definition clearOfRounding (draw : N) (n : nat) : bool :=
  (((draw mod 2 ^ 53) * N.of_nat n) mod 2 ^ 53 + N.of_nat n <=? 2 ^ 53)%N.






(** [response.headers.get("Location")] *)
Definition location (response : Response) : option string :=
  headers_get (responseHeaders response) "Location".

(** The location of the response that a run ends with, if it ends with
    one. *)
Definition locationOf (outcome : Outcome Response) : option string :=
  match outcome with
  | Returned response => location response
  | Thrown _ => None
  end.



(** ** Vocabulary of the further properties *)

(** The world [ms] milliseconds later, nothing else having happened. *)
Definition elapse (ms : Z) (w : World) : World :=
  {| SPOTIFY_DATA := SPOTIFY_DATA w; clock := clock w + ms;
     entropy := entropy w; cursor := cursor w; upstream := upstream w;
     trace := trace w |}.

(** The paths that the [switch] of [fetch] knows. *)
Definition knownPaths : list string :=
  ["/"; "/setup"; "/credentials"; "/callback"; "/now-playing"; "/recent"; "/health"].

(** [m] leaves the namespace as it found it. *)
Definition leavesData {A} (m : Async A) : Prop :=
  forall w, SPOTIFY_DATA (snd (m w)) = SPOTIFY_DATA w.

(** Every event except a write or a deletion. *)
Definition besidesMutation (e : Event) : bool := negb (isMutation e).

(** The number of calls to the upstream service among [events]. *)
Fixpoint upstreamCalls (events : list Event) : nat :=
  match events with
  | [] => O
  | Fetch _ :: rest => S (upstreamCalls rest)
  | _ :: rest => upstreamCalls rest
  end.

(** [m] calls the upstream service at most [n] times. *)
Definition callsAtMost {A} (n : nat) (m : Async A) : Prop :=
  forall w, exists events,
    trace (snd (m w)) = (events ++ trace w)%list /\
    (upstreamCalls events <= n)%nat.

(** The characters of [generateSecureApiKey]. *)
Definition isUrlSafe (c : ascii) : bool :=
  isAlnum c || (code c =? 45)%nat || (code c =? 95)%nat.

(** Two environments that [handleHealth] cannot tell apart: the same label,
    and secrets present or absent alike. *)
Definition sameFlags (env1 env2 : Env) : Prop :=
  JsString.truthy (API_KEY env1) = JsString.truthy (API_KEY env2) /\
  JsString.truthy (SPOTIFY_CLIENT_ID env1) = JsString.truthy (SPOTIFY_CLIENT_ID env2) /\
  JsString.truthy (SPOTIFY_CLIENT_SECRET env1)
    = JsString.truthy (SPOTIFY_CLIENT_SECRET env2) /\
  ENVIRONMENT env1 = ENVIRONMENT env2.

(** What [getStoredTokens] yields in the world [w]: [null] when nothing (or
    the empty text) is stored, the parsed record, or the exception of
    [JSON.parse] (lemma [getStoredTokens_run]). *)
Definition readTokens (JSON_parse : string -> option Json.t) (w : World)
  : Outcome Json.t :=
  if JsString.truthy (stored w "spotify_tokens") then
    match JSON_parse (splice (stored w "spotify_tokens")) with
    | Some tokens => Returned tokens
    | None => Thrown "SyntaxError"
    end
  else Returned JNull.

(** The page that [handleRoot] shows once credentials are configured. *)
Definition dashboardFor (tokens : Json.t) : Page :=
  if Json.truthy tokens
  then RootPage "complete" "/now-playing" "View Now Playing"
  else RootPage "credentials_only" "/setup" "Connect Spotify Account".


(** The paths whose handlers begin by reading the stored tokens. *)
Definition tokenReaders : list string :=
  ["/"; "/now-playing"; "/recent"; "/health"].

(** [null], as against every other JSON value. *)
Definition isNull (v : Json.t) : bool :=
  match v with
  | JNull => true
  | _ => false
  end.

(** A call upstream goes to Spotify: to the token endpoint, or to the
    player API with a bearer token.  Every other event passes. *)
Definition toSpotify (e : Event) : bool :=
  match e with
  | Fetch req =>
      String.eqb (fetchUrl req) tokenEndpoint
      || (startsWith (fetchUrl req) "https://api.spotify.com/v1/me/player/"
          && startsWith (splice (headers_get (fetchHeaders req) "Authorization"))
               "Bearer ")
  | _ => true
  end.

(** ** Further sample data *)

(** An environment with the API key but without client credentials. *)
Definition envWithoutSpotify : Env :=
  {| SPOTIFY_CLIENT_ID := None;
     SPOTIFY_CLIENT_SECRET := Some EmptyString;
     API_KEY := Some "key-1234";
     ENVIRONMENT := None |}.



(** An upstream that answers 200 with a body that is no JSON. *)
Definition upstreamGarbles (req : FetchRequest) : FetchResponse :=
  {| upstreamStatus := 200; statusText := "OK"; upstreamBody := "<html>" |}.

(** The upstream's redirect after the user has denied access. *)
Definition callbackDenied : Request :=
  sampleRequest "GET" "/callback"
    [("error", "access_denied"); ("state", "xyz")] [].

(** A namespace with two pending states. *)
Definition pendingTwo : gmap string Entry :=
  <[ stateKey "abc" := {| value := "pending"; expiration := Some 601000 |} ]>
    pendingXyz.

(** A namespace whose token record is no JSON. *)
Definition tokensCorrupt : gmap string Entry :=
  {[ "spotify_tokens" := {| value := "{"; expiration := None |} ]}.

(** Another deployment: other secrets, the same label. *)
Definition otherEnv : Env :=
  {| SPOTIFY_CLIENT_ID := Some "ffff0000";
     SPOTIFY_CLIENT_SECRET := Some "another";
     API_KEY := Some "key-9999";
     ENVIRONMENT := Some "production" |}.

(** The callback that brings back [state] with a code. *)
Definition callbackWith (state : string) : Request :=
  sampleRequest "GET" "/callback" [("code", "AQB7"); ("state", state)] [].

(** ** The model at work *)

Example btoa_credentials : btoa "0a1b2c3d:s3cr3t" = "MGExYjJjM2Q6czNjcjN0".
Proof. reflexivity. Qed.

Example encode_scope :
  encodeURIComponent oauthScope
  = "user-read-currently-playing%20user-read-recently-played%20user-read-playback-state".
Proof. reflexivity. Qed.

Example encode_beyond_ascii : encodeURIComponent (str1 (chr 233)) = "%C3%A9".
Proof. reflexivity. Qed.

Example stringify_error :
  stringify (JObj [("error", JStr invalidKeyMessage)])
  = "{" +:+ dquote +:+ "error" +:+ dquote +:+ ":"
        +:+ dquote +:+ "Invalid API key." +:+ dquote +:+ "}".
Proof. reflexivity. Qed.

Example stringify_escapes :
  stringify (JStr ("a" +:+ dquote +:+ newline))
  = dquote +:+ "a" +:+ backslash +:+ dquote +:+ backslash +:+ "n" +:+ dquote.
Proof. reflexivity. Qed.

Example stringify_indented :
  stringifyIndent (JObj [("ok", JBool true); ("at", JObj [("home", JStr "/")])]) 2
  = "{" +:+ newline +:+
    "  " +:+ dquote +:+ "ok" +:+ dquote +:+ ": true," +:+ newline +:+
    "  " +:+ dquote +:+ "at" +:+ dquote +:+ ": {" +:+ newline +:+
    "    " +:+ dquote +:+ "home" +:+ dquote +:+ ": " +:+ dquote +:+ "/" +:+ dquote
           +:+ newline +:+
    "  }" +:+ newline +:+
    "}".
Proof. reflexivity. Qed.

Example template_of_array :
  template (Some (JArr [JNum "1"; JNull; JArr [JStr "x"; JBool true]])) = "1,,x,true".
Proof. reflexivity. Qed.

Example header_names_fold_case :
  headers_get [("authorization", "Bearer k")] "Authorization" = Some "Bearer k".
Proof. reflexivity. Qed.

Example preflight_is_answered_at_once :
  fetch sampleParse samplePrint preflightNowPlaying sampleEnv emptyWorld
  = (Returned (newResponse NoBody 200 corsHeaders), emptyWorld).
Proof. reflexivity. Qed.

Example setup_post_location :
  fst (fetch sampleParse samplePrint setupPost sampleEnv emptyWorld)
  = Returned (Response_redirect
      ("https://accounts.spotify.com/authorize?response_type=code" +:+
       "&client_id=0a1b2c3d" +:+
       "&scope=user-read-currently-playing%20user-read-recently-played%20user-read-playback-state" +:+
       "&redirect_uri=https%3A%2F%2Fproxy.example.workers.dev%2Fcallback" +:+
       "&state=AIQZhqy7FOWfnw4D") 302).
Proof. vm_compute. reflexivity. Qed.

(** The location of that response, as a client reads it. *)
Example setup_post_location_header :
  locationOf (fst (fetch sampleParse samplePrint setupPost sampleEnv emptyWorld))
  = Some
      ("https://accounts.spotify.com/authorize?response_type=code" +:+
       "&client_id=0a1b2c3d" +:+
       "&scope=user-read-currently-playing%20user-read-recently-played%20user-read-playback-state" +:+
       "&redirect_uri=https%3A%2F%2Fproxy.example.workers.dev%2Fcallback" +:+
       "&state=AIQZhqy7FOWfnw4D").
Proof. vm_compute. reflexivity. Qed.

(** The serialisation of a URL leaves the part before the query, escapes
    the query and the fragment each with its own set, and drops tabs and
    newlines. *)
Example URL_reserialize_escapes :
  URL_reserialize ("https://h/p?a=b c'd#e f'g`h" +:+ str1 (chr 10))
  = "https://h/p?a=b%20c%27d#e%20f'g%60h".
Proof. vm_compute. reflexivity. Qed.

(** A draw whose product with 62 lies just below 8: the double-precision
    product is 8, so the draw picks the index 8 and not 7. *)
Example rounding_carries_to_next_index :
  pickIndex 1162219258676257 62 = 8%nat /\
  exactIndex 1162219258676257 62 = 7%nat /\
  clearOfRounding 1162219258676257 62 = false.
Proof. vm_compute. repeat split. Qed.

Example callback_effects_in_order :
  trace (snd (fetch sampleParse samplePrint callbackXyz sampleEnv
                (sampleWorld pendingXyz upstreamGrants)))
  = [ KvDelete "oauth_state_xyz";
      KvPut "spotify_tokens" (stringify sampleTokens) (Some 3600);
      Fetch (tokenRequest "AQB7" (url callbackXyz) sampleEnv);
      KvGet "oauth_state_xyz" ].
Proof. vm_compute. reflexivity. Qed.

(** A handler that throws is not caught by [fetch]: with a stored text that
    is no JSON, [/health] ends in the exception. *)
Example handler_exception_escapes :
  fst (fetch sampleParse samplePrint healthPlain sampleEnv
         (sampleWorld {[ "spotify_tokens" :=
                           {| value := "{"; expiration := None |} ]}
            upstreamGrants))
  = Thrown "SyntaxError".
Proof. vm_compute. reflexivity. Qed.

(** ** Properties *)

Section Properties.

Variable JSON_parse : string -> option Json.t.
Variable toISOString : Z -> string.

(** The worker under these two services. *)
Local Abbreviation serve := (fetch JSON_parse toISOString).
Local Abbreviation dispatch := (route JSON_parse toISOString).
Local Abbreviation callback := (handleCallback JSON_parse).

Lemma startsWith_refl (s : string) : startsWith s s = true.
Proof.
  induction s as [|c s IH]; simpl; [reflexivity|].
  rewrite IH, Ascii.eqb_refl. reflexivity.
Qed.

Lemma startsWith_app (p s : string) : startsWith (p +:+ s) p = true.
Proof.
  induction p as [|c p IH]; simpl; [destruct s; reflexivity|].
  rewrite IH, Ascii.eqb_refl. reflexivity.
Qed.

Lemma includes_startsWith (s p : string) :
  startsWith s p = true -> includes s p = true.
Proof. intros H. destruct s; simpl in *; rewrite H; reflexivity. Qed.

Lemma includes_self (s : string) : includes s s = true.
Proof. apply includes_startsWith, startsWith_refl. Qed.

(** A string includes whatever it ends in. *)
Lemma includes_app_r (a b : string) : includes (a +:+ b) b = true.
Proof.
  induction a as [|c a IH]; simpl.
  - apply includes_self.
  - rewrite IH. apply orb_true_r.
Qed.

Lemma truthy_Some (o : option string) :
  JsString.truthy o = true -> exists c s, o = Some (String c s).
Proof.
  destruct o as [[|c s]|]; simpl; try discriminate. eauto.
Qed.

Lemma truthy_splice (o : option string) :
  JsString.truthy o = true -> o = Some (splice o).
Proof.
  intros H. destruct (truthy_Some o H) as (c & s & ->). reflexivity.
Qed.

(** On a public path a request that is no preflight goes straight to the
    [switch]. *)
Lemma fetch_public (request : Request) (env : Env) (w : World) :
  method request <> "OPTIONS" ->
  array_includes publicEndpoints (pathname (url request)) = true ->
  serve request env w = dispatch request env w.
Proof.
  intros Hm Hp. unfold fetch.
  destruct (String.eqb_spec (method request) "OPTIONS") as [E|_]; [contradiction|].
  rewrite Hp. reflexivity.
Qed.

Lemma route_callback (request : Request) (env : Env) :
  pathname (url request) = "/callback" ->
  dispatch request env = callback request env.
Proof.
  intros Hp. unfold route. rewrite Hp. reflexivity.
Qed.

Lemma fetch_callback (request : Request) (env : Env) (w : World) :
  method request = "GET" ->
  pathname (url request) = "/callback" ->
  serve request env w = callback request env w.
Proof.
  intros Hm Hp. rewrite fetch_public.
  - rewrite route_callback; auto.
  - rewrite Hm. discriminate.
  - rewrite Hp. reflexivity.
Qed.

Lemma handleCallback_outcome (request : Request) (env : Env) (w : World) :
  callback request env w = callbackOutcome JSON_parse request env w.
Proof.
  unfold handleCallback, callbackOutcome, exchangeAnswer,
    callbackCode, callbackState, query.
  destruct (JsString.truthy (searchParams_get _ "error")); [reflexivity|].
  destruct (negb _ || negb _); [reflexivity|].
  unfold bind at 1, kv_get at 1.
  destruct (negb (JsString.truthy (stored w _))); [reflexivity|].
  unfold bind at 1, exchangeCodeForTokens, hasCredentials.
  rewrite negb_andb.
  destruct (negb _ || negb _); [reflexivity|].
  unfold bind at 1, upstream_fetch at 1. simpl upstream.
  destruct (negb (ok _)); [reflexivity|].
  unfold bind at 1, response_json.
  destruct (JSON_parse _); reflexivity.
Qed.

(** The namespace answers nothing for a key that was never written or was
    deleted, and nothing for one whose entry has expired. *)
Lemma stored_absent (w : World) (key : string) :
  SPOTIFY_DATA w !! key = None -> stored w key = None.
Proof. intros H. unfold stored. rewrite H. reflexivity. Qed.

Lemma stored_expired (w : World) (key : string) (e : Entry) (t : Z) :
  SPOTIFY_DATA w !! key = Some e -> expiration e = Some t -> t <= clock w ->
  stored w key = None.
Proof.
  intros H He Ht. unfold stored, live. rewrite H, He.
  rewrite (proj2 (Z.ltb_ge _ _)) by lia. reflexivity.
Qed.

Lemma stateKey_not_tokens (state : string) : stateKey state <> "spotify_tokens".
Proof. unfold stateKey. simpl. discriminate. Qed.

(** [exchangeCodeForTokens] reports success exactly when both credentials
    are configured, the upstream answers 2xx, and the body is JSON. *)
Lemma exchange_succeeds_iff
  (code : string) (callbackUrl : URL) (env : Env) (w : World) (data : Json.t) :
  let answer := upstream w (tokenRequest code callbackUrl env) in
  fst (exchangeCodeForTokens JSON_parse code callbackUrl env w)
    = Returned (ExchangeSucceeded data)
  <-> hasCredentials env = true /\ ok answer = true /\
      JSON_parse (upstreamBody answer) = Some data.
Proof.
  unfold exchangeCodeForTokens, hasCredentials. rewrite <- negb_andb.
  destruct (_ && _); cbn [negb].
  2:{ split; [discriminate | intros (H & _); discriminate]. }
  unfold bind, upstream_fetch, response_json.
  destruct (ok _); cbn [negb].
  2:{ split; [discriminate | intros (_ & H & _); discriminate]. }
  destruct (JSON_parse _) as [d|]; cbn [fst ret throw].
  - split; [intros [= ->]; auto | intros (_ & _ & [= ->]); reflexivity].
  - split; [discriminate | intros (_ & _ & H); discriminate].
Qed.

(** The POST to the token endpoint is sent exactly when the guards of
    [exchangeAttempted] pass. *)
Lemma exchange_attempted_iff_fetch (request : Request) (env : Env) (w : World) :
  exists events,
    trace (snd (callback request env w)) = (events ++ trace w)%list /\
    existsb isFetch events = exchangeAttempted request env w.
Proof.
  rewrite handleCallback_outcome. unfold callbackOutcome, exchangeAttempted.
  destruct (JsString.truthy (query request "error")); simpl.
  { exists []. auto. }
  destruct (JsString.truthy (query request "code")); simpl.
  2:{ exists []. auto. }
  destruct (JsString.truthy (query request "state")); simpl.
  2:{ exists []. auto. }
  destruct (JsString.truthy (stored w _)); simpl.
  2:{ eexists [_]. simpl. auto. }
  destruct (hasCredentials env); simpl.
  2:{ eexists [_]. simpl. auto. }
  destruct (ok _); simpl.
  2:{ eexists [_; _]. simpl. auto. }
  destruct (JSON_parse _); simpl.
  - eexists [_; _; _; _]. simpl. auto.
  - eexists [_; _]. simpl. auto.
Qed.

(** C1: a GET to /callback whose state matches no stored key
    [oauth_state_<state>] (never issued, expired, or consumed already) is
    answered 400; no call to the upstream service is made, and the namespace
    is neither written nor deleted from. *)
Theorem callback_unknown_state_rejected
  (request : Request) (env : Env) (w : World) :
  method request = "GET" ->
  pathname (url request) = "/callback" ->
  (forall state, query request "state" = Some state ->
                 stored w (stateKey state) = None) ->
  exists response w' events,
    serve request env w = (Returned response, w') /\
    status response = 400 /\
    trace w' = (events ++ trace w)%list /\
    existsb isFetch events = false /\
    existsb isMutation events = false /\
    SPOTIFY_DATA w' = SPOTIFY_DATA w.
Proof.
  intros Hm Hp Hstate.
  rewrite fetch_callback, handleCallback_outcome by assumption.
  unfold callbackOutcome.
  destruct (JsString.truthy (query request "error")).
  { do 2 eexists. exists []. repeat split. }
  destruct (JsString.truthy (query request "code")); simpl.
  2:{ do 2 eexists. exists []. repeat split. }
  destruct (JsString.truthy (query request "state")) eqn:Hs; simpl.
  2:{ do 2 eexists. exists []. repeat split. }
  unfold callbackState. rewrite (Hstate _ (truthy_splice _ Hs)). simpl.
  do 2 eexists. eexists [_]. repeat split.
Qed.


(** C3: a GET to /callback for which the token exchange is reached and
    answered with a status outside 2xx is answered 400, with a body that
    ends in the upstream's status text; nothing is written under
    [spotify_tokens] and nothing is deleted. *)
Theorem callback_exchange_failure_leaves_store
  (request : Request) (env : Env) (w : World) :
  method request = "GET" ->
  pathname (url request) = "/callback" ->
  exchangeAttempted request env w = true ->
  ok (exchangeAnswer request env w) = false ->
  let key := stateKey (callbackState request) in
  let reason := statusText (exchangeAnswer request env w) in
  exists response w' text,
    serve request env w = (Returned response, w') /\
    status response = 400 /\
    body response = Text text /\
    text = "Token exchange failed: Token exchange failed: " +:+ reason /\
    includes text reason = true /\
    trace w' =
      ([ Fetch (tokenRequest (callbackCode request) (url request) env);
        KvGet key ] ++ trace w)%list /\
    SPOTIFY_DATA w' = SPOTIFY_DATA w.
Proof.
  intros Hm Hp Hx Hok key reason.
  rewrite fetch_callback, handleCallback_outcome by assumption.
  unfold callbackOutcome, exchangeAttempted in *.
  repeat (apply andb_prop in Hx; destruct Hx as [Hx ?]).
  apply negb_true_iff in Hx.
  repeat match goal with H : _ = _ |- _ => rewrite H end. simpl.
  do 3 eexists. split; [reflexivity|].
  repeat split.
  apply (includes_app_r "Token exchange failed: Token exchange failed: ").
Qed.

(** C4, as amended: when a callback arrives whose state matches a stored key
    and its token exchange succeeds, the state is read once and deleted
    after that read, and a later lookup of the same state finds nothing. *)
Theorem callback_state_consumed_on_success
  (request : Request) (env : Env) (w : World) (data : Json.t) :
  method request = "GET" ->
  pathname (url request) = "/callback" ->
  exchangeAttempted request env w = true ->
  ok (exchangeAnswer request env w) = true ->
  JSON_parse (upstreamBody (exchangeAnswer request env w)) = Some data ->
  let key := stateKey (callbackState request) in
  exists response w' between,
    serve request env w = (Returned response, w') /\
    trace w' = (KvDelete key :: between ++ KvGet key :: trace w)%list /\
    readsOf key (KvDelete key :: between ++ [KvGet key]) = 1%nat /\
    stored w' key = None /\
    fst (kv_get key w') = Returned None.
Proof.
  intros Hm Hp Hx Hok Hdata key.
  rewrite fetch_callback, handleCallback_outcome by assumption.
  unfold callbackOutcome, exchangeAttempted in *.
  repeat (apply andb_prop in Hx; destruct Hx as [Hx ?]).
  apply negb_true_iff in Hx.
  repeat match goal with H : _ = _ |- _ => rewrite H end. simpl. fold key.
  assert (Hgone : stored
    (emit (KvDelete key) (set_data (delete key)
      (emit (KvPut "spotify_tokens" (stringify data) (Some 3600))
        (set_data (insert "spotify_tokens" (tokenRecord w data))
          (emit (Fetch (tokenRequest (callbackCode request) (url request) env))
            (emit (KvGet key) w)))))) key = None).
  { unfold stored. simpl. rewrite lookup_delete_eq. reflexivity. }
  do 2 eexists. eexists [_; _]. split; [reflexivity|].
  repeat split.
  - simpl. rewrite String.eqb_refl. reflexivity.
  - exact Hgone.
  - unfold kv_get. simpl. f_equal. exact Hgone.
Qed.

(** C10: the handling of a callback looks at the presence of a value under
    the state key, not at the value: in two worlds that differ only in the
    non-empty value held under [oauth_state_<state>], the same request has
    the same outcome and performs the same effects, the token exchange among
    them, and the two namespaces end up equal away from that key. *)
Theorem callback_ignores_state_value
  (request : Request) (env : Env) (w1 : World) (state : string) (e1 e2 : Entry) :
  method request = "GET" ->
  pathname (url request) = "/callback" ->
  query request "state" = Some state ->
  SPOTIFY_DATA w1 !! stateKey state = Some e1 ->
  live (clock w1) e1 = true -> value e1 <> EmptyString ->
  live (clock w1) e2 = true -> value e2 <> EmptyString ->
  let w2 := set_data (insert (stateKey state) e2) w1 in
  exists outcome w1' w2',
    serve request env w1 = (outcome, w1') /\
    serve request env w2 = (outcome, w2') /\
    trace w1' = trace w2' /\
    delete (stateKey state) (SPOTIFY_DATA w1')
      = delete (stateKey state) (SPOTIFY_DATA w2').
Proof.
  intros Hm Hp Hs He1 Hl1 Hv1 Hl2 Hv2 w2.
  rewrite !fetch_callback, !handleCallback_outcome by assumption.
  assert (Hk : callbackState request = state)
    by (unfold callbackState; rewrite Hs; reflexivity).
  assert (S1 : JsString.truthy (stored w1 (stateKey state)) = true).
  { unfold stored. rewrite He1, Hl1. simpl. destruct (value e1); congruence. }
  assert (S2 : JsString.truthy (stored w2 (stateKey state)) = true).
  { unfold stored, w2. simpl. rewrite lookup_insert_eq. simpl in Hl2. rewrite Hl2.
    simpl. destruct (value e2); congruence. }
  unfold callbackOutcome. rewrite Hk, S1, S2.
  change (exchangeAnswer request env w2) with (exchangeAnswer request env w1).
  assert (Hfail : delete (stateKey state) (SPOTIFY_DATA w1)
                  = delete (stateKey state) (SPOTIFY_DATA w2)).
  { unfold w2. simpl. rewrite delete_insert_eq. reflexivity. }
  destruct (JsString.truthy (query request "error")).
  { do 3 eexists. repeat split. exact Hfail. }
  destruct (negb _ || negb _).
  { do 3 eexists. repeat split. exact Hfail. }
  simpl negb. cbv iota.
  destruct (negb (hasCredentials env)).
  { do 3 eexists. repeat split. exact Hfail. }
  destruct (negb (ok _)).
  { do 3 eexists. repeat split. exact Hfail. }
  destruct (JSON_parse _).
  - do 3 eexists. repeat split. simpl.
    rewrite !delete_delete_eq.
    rewrite (insert_insert_ne _ "spotify_tokens" (stateKey state))
      by (intros E; symmetry in E; revert E; apply stateKey_not_tokens).
    rewrite delete_insert_eq. reflexivity.
  - do 3 eexists. repeat split. exact Hfail.
Qed.

(** *** The gate *)

Lemma gate_missing_header (request : Request) (env : Env) (w : World) :
  JsString.truthy (headers_get (headers request) "Authorization") = false ->
  requireApiKey request env w
  = (Returned (Some (newResponse (errorBody missingHeaderMessage) 401 jsonHeaders)),
     emit AuthGate w).
Proof. intros H. unfold requireApiKey, bind, mark. rewrite H. reflexivity. Qed.

Lemma gate_bad_format (request : Request) (env : Env) (w : World) (h : string) :
  headers_get (headers request) "Authorization" = Some h ->
  h <> EmptyString ->
  startsWith h "Bearer " = false ->
  requireApiKey request env w
  = (Returned (Some (newResponse (errorBody badFormatMessage) 401 jsonHeaders)),
     emit AuthGate w).
Proof.
  intros H Hne Hp. unfold requireApiKey, bind, mark. rewrite H.
  assert (Ht : JsString.truthy (Some h) = true)
    by (destruct h; [congruence|reflexivity]).
  rewrite Ht. change (splice (Some h)) with h. cbn [negb].
  rewrite Hp. reflexivity.
Qed.

Lemma startsWith_truthy (h p : string) :
  p <> EmptyString -> startsWith h p = true -> JsString.truthy (Some h) = true.
Proof. destruct h, p; simpl; congruence. Qed.

Lemma gate_not_configured (request : Request) (env : Env) (w : World) (h : string) :
  headers_get (headers request) "Authorization" = Some h ->
  startsWith h "Bearer " = true ->
  JsString.truthy (API_KEY env) = false ->
  requireApiKey request env w = (Returned (Some notConfiguredResponse), emit AuthGate w).
Proof.
  intros H Hp Hk. unfold requireApiKey, bind, mark. rewrite H.
  rewrite (startsWith_truthy h "Bearer ") by (discriminate || assumption).
  change (splice (Some h)) with h. cbn [negb]. rewrite Hp, Hk. reflexivity.
Qed.

Lemma gate_wrong_key (request : Request) (env : Env) (w : World) (h key : string) :
  headers_get (headers request) "Authorization" = Some h ->
  startsWith h "Bearer " = true ->
  API_KEY env = Some key -> key <> EmptyString ->
  String.eqb (slice h 7) key = false ->
  requireApiKey request env w
  = (Returned (Some (newResponse (errorBody invalidKeyMessage) 401 jsonHeaders)),
     emit AuthGate w).
Proof.
  intros H Hp Hk Hne Hs. unfold requireApiKey, bind, mark. rewrite H.
  rewrite (startsWith_truthy h "Bearer ") by (discriminate || assumption).
  change (splice (Some h)) with h. cbn [negb]. rewrite Hp, Hk.
  assert (Ht : JsString.truthy (Some key) = true)
    by (destruct key; [congruence|reflexivity]).
  rewrite Ht. change (splice (Some key)) with key. cbn [negb].
  rewrite Hs. reflexivity.
Qed.

Lemma gate_opens (request : Request) (env : Env) (w : World) (key : string) :
  headers_get (headers request) "Authorization" = Some ("Bearer " +:+ key) ->
  API_KEY env = Some key -> key <> EmptyString ->
  requireApiKey request env w = (Returned None, emit AuthGate w).
Proof.
  intros H Hk Hne. unfold requireApiKey, bind, mark. rewrite H, Hk.
  destruct key; [congruence|]. simpl. rewrite Ascii.eqb_refl, String.eqb_refl.
  reflexivity.
Qed.

(** On a protected path a request that is no preflight meets the gate, and
    is dispatched only if the gate lets it through. *)
Lemma fetch_protected (request : Request) (env : Env) (w : World) :
  method request <> "OPTIONS" ->
  array_includes publicEndpoints (pathname (url request)) = false ->
  serve request env w =
    match requireApiKey request env w with
    | (Returned (Some denied), w') => (Returned denied, w')
    | (Returned None, w') => dispatch request env w'
    | (Thrown _, w') =>
        (Returned (newResponse (Text "Internal Server Error") 500 corsHeaders), w')
    end.
Proof.
  intros Hm Hp. unfold fetch.
  destruct (String.eqb_spec (method request) "OPTIONS") as [E|_]; [contradiction|].
  rewrite Hp. unfold bind, try_catch. cbn [negb].
  destruct (requireApiKey request env w) as [[[r|]|e] w']; reflexivity.
Qed.

Lemma refusalFor_fixed (request : Request) : In (refusalFor request) refusals.
Proof.
  unfold refusalFor, refusals.
  destruct (headers_get _ _) as [[|c h]|]; [| destruct (startsWith _ _) |];
    simpl; auto.
Qed.

(** The gate answers a request without a valid key by the refusal its
    header draws, whichever key is configured. *)
Lemma gate_refuses (request : Request) (env : Env) (w : World) (key : string) :
  API_KEY env = Some key -> key <> EmptyString ->
  lacksValidBearer request key = true ->
  requireApiKey request env w
  = (Returned (Some (newResponse (errorBody (refusalFor request)) 401 jsonHeaders)),
     emit AuthGate w).
Proof.
  intros Hk Hne Hl. unfold lacksValidBearer, refusalFor in *.
  destruct (headers_get (headers request) "Authorization") as [h|] eqn:Hh.
  - destruct (JsString.truthy (Some h)) eqn:Ht.
    2:{ rewrite gate_missing_header by (rewrite Hh; exact Ht).
        destruct h; [reflexivity|discriminate]. }
    assert (Hh' : h <> EmptyString) by (intros ->; discriminate).
    destruct (startsWith h "Bearer ") eqn:Hp.
    + rewrite (gate_wrong_key _ _ _ h key); auto.
      * destruct h; [congruence|reflexivity].
      * simpl in Hl. apply negb_true_iff in Hl. exact Hl.
    + rewrite (gate_bad_format _ _ _ h); auto.
      destruct h; [congruence|reflexivity].
  - rewrite gate_missing_header by (rewrite Hh; reflexivity). reflexivity.
Qed.

(** C5, as amended: a request, other than a preflight, to a path outside the
    public list that lacks a valid bearer key while a non-empty key is
    configured is answered 401 by the gate, before any access to the
    namespace or the upstream; the body is one of the three fixed refusals,
    and the whole answer is the same under every other configuration whose
    key the request also fails to present. *)
Theorem protected_path_refused_without_key
  (request : Request) (env : Env) (w : World) (key : string) :
  method request <> "OPTIONS" ->
  array_includes publicEndpoints (pathname (url request)) = false ->
  API_KEY env = Some key -> key <> EmptyString ->
  lacksValidBearer request key = true ->
  exists response message,
    serve request env w = (Returned response, emit AuthGate w) /\
    status response = 401 /\
    body response = errorBody message /\
    In message refusals /\
    forall env' key',
      API_KEY env' = Some key' -> key' <> EmptyString ->
      lacksValidBearer request key' = true ->
      serve request env' w = (Returned response, emit AuthGate w).
Proof.
  intros Hm Hp Hk Hne Hl.
  exists (newResponse (errorBody (refusalFor request)) 401 jsonHeaders),
    (refusalFor request).
  rewrite fetch_protected, (gate_refuses request env w key) by assumption.
  repeat split; [apply refusalFor_fixed|].
  intros env' key' Hk' Hne' Hl'.
  rewrite fetch_protected, (gate_refuses request env' w key') by assumption.
  reflexivity.
Qed.

(** C6, as amended: when no API key is configured (empty or absent) and the
    request carries an [Authorization] header that starts with [Bearer ],
    the gate answers 500 with the not-configured error, whatever follows
    the prefix. *)
Theorem gate_reports_missing_configuration
  (request : Request) (env : Env) (w : World) (h : string) :
  JsString.truthy (API_KEY env) = false ->
  headers_get (headers request) "Authorization" = Some h ->
  startsWith h "Bearer " = true ->
  exists response text,
    requireApiKey request env w = (Returned (Some response), emit AuthGate w) /\
    status response = 500 /\
    body response = Text text /\
    includes text "not configured" = true.
Proof.
  intros Hk Hh Hp. exists notConfiguredResponse. eexists.
  rewrite (gate_not_configured request env w h) by assumption.
  repeat split.
Qed.

(** *** What a computation may emit *)

Section Emits.

Variable allowed : Event -> bool.

Lemma emitsOnly_ret {A} (a : A) : emitsOnly allowed (ret a).
Proof. intros w. exists []. split; reflexivity. Qed.

Lemma emitsOnly_throw {A} (e : string) : emitsOnly allowed (@throw A e).
Proof. intros w. exists []. split; reflexivity. Qed.

Lemma emitsOnly_bind {A B} (m : Async A) (k : A -> Async B) :
  emitsOnly allowed m -> (forall a, emitsOnly allowed (k a)) ->
  emitsOnly allowed (bind m k).
Proof.
  intros Hm Hk w. unfold bind.
  destruct (Hm w) as (ev1 & T1 & F1).
  destruct (m w) as [[a|e] w1]; simpl in T1.
  - destruct (Hk a w1) as (ev2 & T2 & F2).
    exists (ev2 ++ ev1)%list. split.
    + rewrite T2, T1. apply app_assoc.
    + rewrite forallb_app, F1, F2. reflexivity.
  - exists ev1. auto.
Qed.

Lemma emitsOnly_event {A} (e : Event) (f : World -> World) (a : World -> A) :
  allowed e = true -> (forall w, trace (f w) = trace w) ->
  emitsOnly allowed (fun w => (Returned (a w), emit e (f w))).
Proof.
  intros He Hf w. exists [e]. simpl. rewrite Hf, He. auto.
Qed.

Lemma emitsOnly_kv_get (key : string) :
  allowed (KvGet key) = true -> emitsOnly allowed (kv_get key).
Proof. intros H. apply (emitsOnly_event _ (fun w => w)); auto. Qed.

Lemma emitsOnly_kv_put (key val : string) (ttl : option Z) :
  allowed (KvPut key val ttl) = true -> emitsOnly allowed (kv_put key val ttl).
Proof.
  intros H w. exists [KvPut key val ttl]. simpl. rewrite H. auto.
Qed.

Lemma emitsOnly_kv_delete (key : string) :
  allowed (KvDelete key) = true -> emitsOnly allowed (kv_delete key).
Proof. intros H w. exists [KvDelete key]. simpl. rewrite H. auto. Qed.

Lemma emitsOnly_fetch (req : FetchRequest) :
  allowed (Fetch req) = true -> emitsOnly allowed (upstream_fetch req).
Proof. intros H. apply (emitsOnly_event _ (fun w => w)); auto. Qed.

Lemma emitsOnly_random (n : nat) : emitsOnly allowed (random_below n).
Proof. intros w. exists []. split; reflexivity. Qed.

Lemma emitsOnly_now : emitsOnly allowed Date_now.
Proof. intros w. exists []. split; reflexivity. Qed.

Lemma emitsOnly_randomChars (charset : string) (n : nat) (result : string) :
  emitsOnly allowed (randomChars charset n result).
Proof.
  revert result. induction n as [|n IH]; intros result; simpl.
  - apply emitsOnly_ret.
  - apply emitsOnly_bind; [apply emitsOnly_random | intros i; apply IH].
Qed.

End Emits.

Create HintDb emits.

#[local] Hint Resolve emitsOnly_ret emitsOnly_throw emitsOnly_kv_get
  emitsOnly_kv_put emitsOnly_kv_delete emitsOnly_fetch emitsOnly_random
  emitsOnly_now emitsOnly_randomChars : emits.

(** Walks through a handler: a bind splits, a conditional or a match is
    taken both ways, a primitive is closed by its lemma. *)
Ltac emits_walk :=
  repeat first
    [ apply emitsOnly_bind; [| intros ?]
    | match goal with
      | |- emitsOnly _ (if ?b then _ else _) => destruct b
      | |- emitsOnly _ (match ?x with _ => _ end) => destruct x
      end
    | solve [auto with emits] ].

Lemma emitsOnly_getStoredTokens (env : Env) :
  emitsOnly besidesGate (getStoredTokens JSON_parse env).
Proof. unfold getStoredTokens. emits_walk. Qed.

Lemma emitsOnly_handleSetup (request : Request) (env : Env) :
  emitsOnly besidesGate (handleSetup request env).
Proof.
  unfold handleSetup, generateRandomString, getSetupHTML. emits_walk.
Qed.

Lemma emitsOnly_handleCredentials (request : Request) (env : Env) :
  emitsOnly besidesGate (handleCredentials request env).
Proof.
  unfold handleCredentials, getCredentialsHTML, generateSecureApiKey. emits_walk.
Qed.

Lemma emitsOnly_handleCallback (request : Request) (env : Env) :
  emitsOnly besidesGate (callback request env).
Proof.
  unfold handleCallback, exchangeCodeForTokens, response_json. emits_walk.
Qed.

Lemma emitsOnly_handleHealth (request : Request) (env : Env) :
  emitsOnly besidesGate (handleHealth JSON_parse toISOString request env).
Proof.
  unfold handleHealth. apply emitsOnly_bind; [apply emitsOnly_getStoredTokens|].
  intros tokens. emits_walk.
Qed.

Lemma public_path_cases (path : string) :
  array_includes publicEndpoints path = true ->
  path = "/health" \/ path = "/credentials" \/ path = "/setup" \/ path = "/callback".
Proof.
  unfold array_includes, publicEndpoints. cbn [existsb]. intros H.
  repeat (apply orb_prop in H; destruct H as [H|H];
          [apply String.eqb_eq in H; auto|]).
  discriminate.
Qed.

(** The handlers read the method and the URL of a request, never its
    headers. *)
Lemma route_ignores_headers (r1 r2 : Request) (env : Env) :
  sameButHeaders r1 r2 -> dispatch r1 env = dispatch r2 env.
Proof.
  intros [Hm Hu]. destruct r1, r2. simpl in *. subst. reflexivity.
Qed.

(** C7: on the public paths [/health], [/credentials], [/setup] and
    [/callback] a request that is no preflight never enters the gate, and
    two such requests that differ only in their headers, the
    [Authorization] header among them, have the same outcome and leave the
    same world. *)
Theorem public_paths_bypass_gate (r1 r2 : Request) (env : Env) (w : World) :
  method r1 <> "OPTIONS" ->
  array_includes publicEndpoints (pathname (url r1)) = true ->
  sameButHeaders r1 r2 ->
  serve r1 env w = serve r2 env w /\
  exists events,
    trace (snd (serve r1 env w)) = (events ++ trace w)%list /\
    existsb isAuthGate events = false.
Proof.
  intros Hm Hp Hsame. split.
  - destruct Hsame as [Em Eu].
    rewrite !fetch_public by (rewrite <- ?Em, <- ?Eu; assumption).
    rewrite (route_ignores_headers r1 r2) by (split; assumption). reflexivity.
  - rewrite fetch_public by assumption.
    assert (Hq : emitsOnly besidesGate (dispatch r1 env)).
    { unfold route.
      destruct (public_path_cases _ Hp) as [E|[E|[E|E]]]; rewrite E; simpl.
      - apply emitsOnly_handleHealth.
      - apply emitsOnly_handleCredentials.
      - apply emitsOnly_handleSetup.
      - apply emitsOnly_handleCallback. }
    destruct (Hq w) as (events & Ht & Hf). exists events. split; [exact Ht|].
    clear Ht. induction events as [|e events IH]; [reflexivity|].
    simpl in *. apply andb_prop in Hf as [He Hf]. rewrite (IH Hf).
    unfold besidesGate in He. apply negb_true_iff in He. rewrite He. reflexivity.
Qed.

(** *** Initiation *)

Lemma append_cons (c : ascii) (s t : string) :
  String c s +:+ t = String c (s +:+ t).
Proof. reflexivity. Qed.

Lemma append_empty_r (s : string) : s +:+ EmptyString = s.
Proof.
  induction s as [|c s IH]; [reflexivity|]. rewrite append_cons, IH. reflexivity.
Qed.

Lemma append_assoc (a b c : string) : (a +:+ b) +:+ c = a +:+ b +:+ c.
Proof.
  induction a as [|x a IH]; [reflexivity|]. rewrite !append_cons, IH. reflexivity.
Qed.



(** *** Drawing an index *)

(** The rounded integer is a multiple of the unit in the last place, it is
    at most half a unit away, and where rounding changes anything the unit
    is at most [m / 2^52]. *)
Lemma roundToDouble_near (m : N) :
  exists p q : N,
    p = (2 ^ (N.log2 m - 52))%N /\
    q = (m / p)%N /\
    (q * p <= roundToDouble m)%N /\
    (2 * roundToDouble m <= 2 * m + p)%N /\
    (roundToDouble m = q * p \/ roundToDouble m = (q + 1) * p)%N /\
    ((p * 2 ^ 52 <= m)%N \/ roundToDouble m = m).
Proof.
  unfold roundToDouble.
  remember (2 ^ (N.log2 m - 52))%N as p eqn:Ep.
  assert (Hp : p <> 0%N) by (subst p; apply N.pow_nonzero; discriminate).
  pose proof (N.Div0.div_mod m p) as Hdm.
  pose proof (N.mod_lt m p Hp) as Hr.
  assert (Hunit : (p * 2 ^ 52 <= m)%N \/ (p = 1%N /\ (m mod p = 0)%N)).
  { destruct (N.le_gt_cases 52 (N.log2 m)) as [H|H].
    - left. destruct (N.eq_dec m 0%N) as [->|Hm];
        [change (N.log2 0) with 0%N in H; lia|].
      subst p. rewrite <- N.pow_add_r.
      replace (N.log2 m - 52 + 52)%N with (N.log2 m) by lia.
      apply N.log2_spec. lia.
    - right. assert (He : (N.log2 m - 52 = 0)%N) by lia.
      rewrite He in Ep. cbn in Ep. subst p. split; [reflexivity|].
      apply N.mod_1_r. }
  remember (m / p)%N as q eqn:Eq. remember (m mod p)%N as r eqn:Er.
  exists p, q. split; [reflexivity|]. split; [exact Eq|].
  destruct ((p <? 2 * r) || ((p =? 2 * r) && N.odd q))%N eqn:Eup.
  - assert (Hhalf : (p <= 2 * r)%N).
    { apply orb_true_iff in Eup as [H|H].
      - apply N.ltb_lt in H. lia.
      - apply andb_true_iff in H as [H _]. apply N.eqb_eq in H. lia. }
    split; [nia|]. split; [nia|]. split; [right; reflexivity|].
    destruct Hunit as [H|[H1 H2]]; [left; exact H|]. lia.
  - split; [nia|]. split; [nia|]. split; [left; reflexivity|].
    destruct Hunit as [H|[H1 H2]]; [left; exact H|]. right. nia.
Qed.

(** Rounding never carries the product to [n]. *)
Lemma pickIndex_lt (draw : N) (n : nat) :
  (0 < n)%nat -> (pickIndex draw n < n)%nat.
Proof.
  intros Hn. unfold pickIndex.
  remember (draw mod 2 ^ 53)%N as d eqn:Ed.
  assert (Hd : (d < 2 ^ 53)%N) by (subst d; apply N.mod_lt; discriminate).
  remember (d * N.of_nat n)%N as m eqn:Em.
  destruct (roundToDouble_near m) as (p & q & Ep & _ & _ & Hhi & _ & Hunit).
  remember (roundToDouble m) as R eqn:ER.
  change (2 ^ 53)%N with 9007199254740992%N in *.
  change (2 ^ 52)%N with 4503599627370496%N in *.
  assert (HR : (R < N.of_nat n * 9007199254740992)%N).
  { assert (Hm : (m + N.of_nat n <= N.of_nat n * 9007199254740992)%N) by nia.
    destruct Hunit as [Hu|Hu]; [|lia].
    assert ((p < 2 * N.of_nat n)%N) by nia. lia. }
  assert ((R / 9007199254740992 < N.of_nat n)%N).
  { apply N.Div0.div_lt_upper_bound. lia. }
  lia.
Qed.



Lemma random_below_lt (n : nat) (w : World) :
  (0 < n)%nat ->
  exists i, random_below n w = (Returned i, advance w) /\ (i < n)%nat.
Proof.
  intros Hn. unfold random_below. eexists. split; [reflexivity|].
  apply pickIndex_lt, Hn.
Qed.

(** Every index below 62 picks one alphanumeric character. *)
Lemma charAt_alphanumeric (i : nat) :
  (i < 62)%nat ->
  exists c, charAt alphanumericCharset i = str1 c /\ isAlnum c = true.
Proof.
  intros Hi.
  assert (Hall : List.forallb
            (fun i => match charAt alphanumericCharset i with
                      | String c EmptyString => isAlnum c
                      | _ => false
                      end) (seq 0 62) = true) by (vm_compute; reflexivity).
  rewrite forallb_forall in Hall.
  specialize (Hall i (proj2 (in_seq 62 0 i) (conj (Nat.le_0_l i) Hi))).
  destruct (charAt alphanumericCharset i) as [|c [|]]; try discriminate.
  exists c. split; [reflexivity | exact Hall].
Qed.

Lemma iter_advance_same (n : nat) (w : World) :
  SPOTIFY_DATA (Nat.iter n advance w) = SPOTIFY_DATA w /\
  clock (Nat.iter n advance w) = clock w /\
  trace (Nat.iter n advance w) = trace w /\
  cursor (Nat.iter n advance w) = (n + cursor w)%nat.
Proof.
  induction n as [|n (D & C & T & K)]; simpl; [auto|].
  rewrite D, C, T, K. auto.
Qed.

(** The loop of [generateRandomString] adds [n] alphanumeric characters and
    makes [n] draws, nothing else. *)
Lemma randomChars_alphanumeric (n : nat) :
  forall (result : string) (w : World),
  exists s,
    randomChars alphanumericCharset n result w
      = (Returned (result +:+ s), Nat.iter n advance w) /\
    String.length s = n /\
    allChars isAlnum s = true.
Proof.
  induction n as [|n IH]; intros result w.
  - exists EmptyString. rewrite append_empty_r. repeat split.
  - cbn [randomChars]. unfold bind.
    change (String.length alphanumericCharset) with 62%nat.
    destruct (random_below_lt 62 w) as (i & E & Hi); [lia|]. rewrite E.
    destruct (charAt_alphanumeric i Hi) as (c & Ec & Hc). rewrite Ec.
    destruct (IH (result +:+ str1 c) (advance w)) as (s & Es & Hl & Ha).
    exists (String c s). rewrite Es, append_assoc, Nat.iter_succ_r.
    repeat split.
    + simpl. rewrite Hl. reflexivity.
    + simpl. rewrite Hc, Ha. reflexivity.
Qed.

Lemma iter_advance_upstream (n : nat) (w : World) :
  upstream (Nat.iter n advance w) = upstream w.
Proof. induction n as [|n IH]; simpl; auto. Qed.

Lemma bind_returned {A B} (m : Async A) (k : A -> Async B)
  (w w1 : World) (a : A) :
  m w = (Returned a, w1) -> bind m k w = k a w1.
Proof. intros E. unfold bind. rewrite E. reflexivity. Qed.

Lemma data_after_put (e : Event) (f : gmap string Entry -> gmap string Entry)
  (w : World) :
  SPOTIFY_DATA (emit e (set_data f w)) = f (SPOTIFY_DATA w).
Proof. reflexivity. Qed.

Lemma clock_after_put (e : Event) (f : gmap string Entry -> gmap string Entry)
  (w : World) :
  clock (emit e (set_data f w)) = clock w.
Proof. reflexivity. Qed.

Lemma upstream_after_put (e : Event) (f : gmap string Entry -> gmap string Entry)
  (w : World) :
  upstream (emit e (set_data f w)) = upstream w.
Proof. reflexivity. Qed.

Lemma handleSetup_post
  (request : Request) (env : Env) (w w16 : World) (state : string) :
  method request = "POST" ->
  hasCredentials env = true ->
  generateRandomString 16 w = (Returned state, w16) ->
  handleSetup request env w
  = (Returned (Response_redirect
                 (authorizeUrl env (origin (url request) +:+ "/callback") state)
                 302),
     emit (KvPut (stateKey state) "pending" (Some 600))
       (set_data
          (insert (stateKey state)
             {| value := "pending"; expiration := Some (clock w16 + 1000 * 600) |})
          w16)).
Proof.
  intros Hm Hc E. unfold handleSetup. rewrite Hc, Hm, String.eqb_refl.
  cbn [negb]. rewrite (bind_returned _ _ w w16 state E). reflexivity.
Qed.

(** *** The state that an initiation draws *)








(** *** The location of a redirect *)



















(** *** Now playing *)

Lemma fetch_authenticated (request : Request) (env : Env) (w : World) (key : string) :
  method request <> "OPTIONS" ->
  array_includes publicEndpoints (pathname (url request)) = false ->
  API_KEY env = Some key -> key <> EmptyString ->
  presentsKey request key ->
  serve request env w = dispatch request env (emit AuthGate w).
Proof.
  intros Hm Hp Hk Hne Hh.
  rewrite fetch_protected, (gate_opens request env w key) by assumption.
  reflexivity.
Qed.

(** C9: an authenticated GET to /now-playing is answered 401 with the
    setup-incomplete message when nothing is stored under [spotify_tokens];
    when a token record is stored there and the upstream answers the
    currently-playing call with 204, it is answered 200 with the JSON body
    [{playing:false, message}]. *)
Theorem now_playing_without_tokens_or_track
  (request : Request) (env : Env) (w : World) (key : string) :
  method request = "GET" ->
  pathname (url request) = "/now-playing" ->
  API_KEY env = Some key -> key <> EmptyString ->
  presentsKey request key ->
  (stored w "spotify_tokens" = None ->
   exists w' text,
     serve request env w
       = (Returned (newResponse (Text text) 401 jsonHeaders), w') /\
     includes text "Please complete OAuth setup first." = true /\
     trace w' = ([KvGet "spotify_tokens"; AuthGate] ++ trace w)%list)
  /\
  (forall record tokens,
     stored w "spotify_tokens" = Some record ->
     JSON_parse record = Some tokens ->
     record <> EmptyString ->
     Json.truthy tokens = true ->
     upstreamStatus (upstream w (nowPlayingCall tokens)) = 204 ->
     exists w',
       serve request env w
         = (Returned (newResponse (Text notPlayingText) 200 jsonHeaders), w') /\
       includes notPlayingText playingFalse = true /\
       trace w' = [Fetch (nowPlayingCall tokens); KvGet "spotify_tokens"; AuthGate]
                    ++ trace w)%list.
Proof.
  intros Hm Hp Hk Hne Hh.
  assert (Hrun : serve request env w
                 = handleNowPlaying JSON_parse request env (emit AuthGate w)).
  { rewrite (fetch_authenticated request env w key); try assumption.
    - unfold route. rewrite Hp. reflexivity.
    - rewrite Hm. discriminate.
    - rewrite Hp. reflexivity. }
  rewrite Hrun. unfold handleNowPlaying, getStoredTokens, bind, kv_get.
  change (stored (emit AuthGate w) "spotify_tokens")
    with (stored w "spotify_tokens").
  split.
  - intros Hnone. rewrite Hnone. cbn [JsString.truthy ret Json.truthy negb].
    do 2 eexists. split; [reflexivity|]. split; [vm_compute; reflexivity|].
    reflexivity.
  - intros record tokens Hrec Hparse Hrne Htruthy H204. rewrite Hrec.
    assert (Ht : JsString.truthy (Some record) = true)
      by (destruct record; [congruence|reflexivity]).
    rewrite Ht. change (splice (Some record)) with record. rewrite Hparse.
    cbn [ret]. rewrite Htruthy. cbn [negb].
    unfold callSpotifyAPI, upstream_fetch. cbn [upstream emit].
    fold (nowPlayingCall tokens). rewrite H204. cbn [Z.eqb Pos.eqb].
    eexists. split; [reflexivity|]. split; [vm_compute; reflexivity|].
    reflexivity.
Qed.

End Properties.

Lemma callback_unknown_state_rejected_witness :
  exists response w' events,
    fetch sampleParse samplePrint callbackForged sampleEnv
      (sampleWorld pendingXyz upstreamGrants) = (Returned response, w') /\
    status response = 400 /\
    trace w' = (events ++ [])%list /\
    existsb isFetch events = false /\
    existsb isMutation events = false /\
    SPOTIFY_DATA w' = pendingXyz.
Proof.
  apply (callback_unknown_state_rejected sampleParse samplePrint callbackForged
           sampleEnv (sampleWorld pendingXyz upstreamGrants));
    [reflexivity | reflexivity |].
  intros state H. vm_compute in H. injection H as <-. vm_compute. reflexivity.
Defined.

(** C5, as stated, fails in two ways: a preflight to a protected path is
    answered 200 without any key, and a configured key that occurs in the
    text of a refusal occurs in the body of that refusal. *)
Lemma protected_path_claim_counterexample :
  ~ (forall request env w key,
       array_includes publicEndpoints (pathname (url request)) = false ->
       API_KEY env = Some key -> key <> EmptyString ->
       lacksValidBearer request key = true ->
       exists response w',
         fetch sampleParse samplePrint request env w = (Returned response, w') /\
         status response = 401)
  /\
  ~ (forall request env w key,
       method request = "GET" ->
       array_includes publicEndpoints (pathname (url request)) = false ->
       API_KEY env = Some key -> key <> EmptyString ->
       lacksValidBearer request key = true ->
       forall response w' text,
         fetch sampleParse samplePrint request env w = (Returned response, w') ->
         body response = Text text ->
         includes text key = false).
Proof.
  split.
  - intros H.
    destruct (H preflightNowPlaying sampleEnv emptyWorld "key-1234")
      as (response & w' & Hrun & Hstatus); try reflexivity; try discriminate.
    vm_compute in Hrun. injection Hrun as <- _. discriminate.
  - intros H.
    specialize (H wrongKeyRequest (envWithKey (Some "Invalid API key.")) emptyWorld
                  "Invalid API key." eq_refl eq_refl eq_refl).
    assert (Hne : "Invalid API key." <> EmptyString) by discriminate.
    specialize (H Hne eq_refl _ _ _ eq_refl eq_refl).
    vm_compute in H. discriminate.
Qed.

Lemma protected_path_refused_without_key_witness :
  exists response message,
    fetch sampleParse samplePrint wrongKeyRequest sampleEnv emptyWorld
      = (Returned response, emit AuthGate emptyWorld) /\
    status response = 401 /\
    body response = errorBody message /\
    In message refusals /\
    forall env' key',
      API_KEY env' = Some key' -> key' <> EmptyString ->
      lacksValidBearer wrongKeyRequest key' = true ->
      fetch sampleParse samplePrint wrongKeyRequest env' emptyWorld
        = (Returned response, emit AuthGate emptyWorld).
Proof.
  apply (protected_path_refused_without_key sampleParse samplePrint
           wrongKeyRequest sampleEnv emptyWorld "key-1234");
    [discriminate | reflexivity | reflexivity | discriminate | reflexivity].
Defined.

(** C6, as stated, fails: with no key configured, a request that carries
    Basic credentials is answered 401 by the gate, not 500. *)
Lemma gate_not_configured_claim_counterexample :
  ~ (forall request env w,
       array_includes publicEndpoints (pathname (url request)) = false ->
       JsString.truthy (API_KEY env) = false ->
       exists response w',
         requireApiKey request env w = (Returned (Some response), w') /\
         status response = 500).
Proof.
  intros H.
  destruct (H basicAuthRequest (envWithKey None) emptyWorld eq_refl eq_refl)
    as (response & w' & Hrun & Hstatus).
  vm_compute in Hrun. injection Hrun as <- _. discriminate.
Qed.

Lemma gate_reports_missing_configuration_witness :
  exists response text,
    requireApiKey wrongKeyRequest (envWithKey None) emptyWorld
      = (Returned (Some response), emit AuthGate emptyWorld) /\
    status response = 500 /\
    body response = Text text /\
    includes text "not configured" = true.
Proof.
  apply (gate_reports_missing_configuration wrongKeyRequest (envWithKey None)
           emptyWorld "Bearer guess"); reflexivity.
Defined.


Lemma callback_exchange_failure_leaves_store_witness :
  exists response w',
    fetch sampleParse samplePrint callbackXyz sampleEnv
      (sampleWorld pendingXyz upstreamRefuses) = (Returned response, w') /\
    status response = 400 /\
    body response
      = Text "Token exchange failed: Token exchange failed: Bad Request" /\
    SPOTIFY_DATA w' = pendingXyz.
Proof.
  destruct (callback_exchange_failure_leaves_store sampleParse samplePrint
              callbackXyz sampleEnv (sampleWorld pendingXyz upstreamRefuses))
    as (response & w' & text & Hrun & Hstatus & Hbody & Htext & _ & _ & Hdata);
    try (vm_compute; reflexivity).
  exists response, w'. rewrite Hbody, Htext.
  repeat apply conj; first [assumption | vm_compute; reflexivity].
Defined.

(** C4, as stated, fails: a callback whose state matches the stored key and
    whose exchange the upstream refuses leaves the state in the namespace,
    where a later lookup finds it. *)
Lemma callback_state_outlives_failed_exchange :
  ~ (forall request env w state marker,
       method request = "GET" ->
       pathname (url request) = "/callback" ->
       query request "state" = Some state ->
       stored w (stateKey state) = Some marker ->
       stored (snd (fetch sampleParse samplePrint request env w)) (stateKey state)
       = None).
Proof.
  intros H.
  specialize (H callbackXyz sampleEnv (sampleWorld pendingXyz upstreamRefuses)
                "xyz" "pending" eq_refl eq_refl eq_refl).
  assert (Hstored : stored (sampleWorld pendingXyz upstreamRefuses) (stateKey "xyz")
                    = Some "pending") by (vm_compute; reflexivity).
  specialize (H Hstored). vm_compute in H. discriminate.
Qed.

Lemma callback_state_consumed_on_success_witness :
  exists response w',
    fetch sampleParse samplePrint callbackXyz sampleEnv
      (sampleWorld pendingXyz upstreamGrants) = (Returned response, w') /\
    stored w' (stateKey "xyz") = None.
Proof.
  destruct (callback_state_consumed_on_success sampleParse samplePrint callbackXyz
              sampleEnv (sampleWorld pendingXyz upstreamGrants) sampleTokens)
    as (response & w' & between & Hrun & _ & _ & Hgone & _);
    try (vm_compute; reflexivity).
  exists response, w'. split; assumption.
Defined.

Lemma public_paths_bypass_gate_witness :
  fetch sampleParse samplePrint healthPlain sampleEnv emptyWorld
  = fetch sampleParse samplePrint healthWithKey sampleEnv emptyWorld.
Proof.
  apply (public_paths_bypass_gate sampleParse samplePrint healthPlain healthWithKey
           sampleEnv emptyWorld);
    [discriminate | reflexivity | split; reflexivity].
Defined.



Lemma now_playing_without_tokens_or_track_witness :
  (exists w' text,
     fetch sampleParse samplePrint (bearerRequest "/now-playing" "key-1234")
       sampleEnv emptyWorld
     = (Returned (newResponse (Text text) 401 jsonHeaders), w') /\
     includes text "Please complete OAuth setup first." = true)
  /\
  (exists w',
     fetch sampleParse samplePrint (bearerRequest "/now-playing" "key-1234")
       sampleEnv (sampleWorld tokensStored upstreamGrants)
     = (Returned (newResponse (Text notPlayingText) 200 jsonHeaders), w')).
Proof.
  assert (Hkey : "key-1234" <> EmptyString) by discriminate.
  split.
  - destruct (proj1 (now_playing_without_tokens_or_track sampleParse samplePrint
                       (bearerRequest "/now-playing" "key-1234") sampleEnv
                       emptyWorld "key-1234" eq_refl eq_refl eq_refl Hkey eq_refl))
      as (w' & text & Hrun & Htext & _); [vm_compute; reflexivity|].
    exists w', text. split; assumption.
  - destruct (proj2 (now_playing_without_tokens_or_track sampleParse samplePrint
                       (bearerRequest "/now-playing" "key-1234") sampleEnv
                       (sampleWorld tokensStored upstreamGrants) "key-1234"
                       eq_refl eq_refl eq_refl Hkey eq_refl)
                    (stringify sampleTokens) sampleTokens)
      as (w' & Hrun & _); try (vm_compute; reflexivity).
    + vm_compute. discriminate.
    + exists w'. assumption.
Defined.

Lemma callback_ignores_state_value_witness :
  exists outcome w1' w2',
    fetch sampleParse samplePrint callbackXyz sampleEnv
      (sampleWorld pendingXyz upstreamGrants) = (outcome, w1') /\
    fetch sampleParse samplePrint callbackXyz sampleEnv
      (set_data (insert (stateKey "xyz") otherMarker)
         (sampleWorld pendingXyz upstreamGrants)) = (outcome, w2') /\
    trace w1' = trace w2'.
Proof.
  destruct (callback_ignores_state_value sampleParse samplePrint callbackXyz
              sampleEnv (sampleWorld pendingXyz upstreamGrants) "xyz"
              {| value := "pending"; expiration := Some 601000 |} otherMarker)
    as (outcome & w1' & w2' & H1 & H2 & Ht & _);
    try (vm_compute; reflexivity); try discriminate.
  exists outcome, w1', w2'. repeat apply conj; assumption.
Defined.

(** ** Further properties *)

Section Further.

Variable JSON_parse : string -> option Json.t.
Variable toISOString : Z -> string.

Local Abbreviation serve := (fetch JSON_parse toISOString).
Local Abbreviation dispatch := (route JSON_parse toISOString).
Local Abbreviation callback := (handleCallback JSON_parse).

(** *** The gate, further *)

Lemma startsWith_split (p h : string) :
  startsWith h p = true -> h = p +:+ slice h (String.length p).
Proof.
  revert h. induction p as [|a p IH]; intros h H.
  - destruct h; reflexivity.
  - destruct h as [|b h]; [discriminate|]. simpl in H.
    apply andb_prop in H as [Hab Hp]. apply Ascii.eqb_eq in Hab. subst b.
    rewrite append_cons. simpl. f_equal. apply IH, Hp.
Qed.

Lemma gate_world (request : Request) (env : Env) (w : World) :
  snd (requireApiKey request env w) = emit AuthGate w.
Proof.
  unfold requireApiKey, bind, mark.
  repeat match goal with
         | |- context [if ?b then _ else _] => destruct b
         end; reflexivity.
Qed.

(** X1: the gate lets a request through exactly when a non-empty key is
    configured and the [Authorization] header is [Bearer ] followed by that
    key and nothing else; whatever it decides, entering it is its only
    effect. *)
Theorem gate_opens_exactly (request : Request) (env : Env) (w : World) :
  (fst (requireApiKey request env w) = Returned None <->
   exists key, API_KEY env = Some key /\ key <> EmptyString /\
               presentsKey request key) /\
  snd (requireApiKey request env w) = emit AuthGate w.
Proof.
  split; [|apply gate_world]. split.
  - intros Hopen.
    destruct (headers_get (headers request) "Authorization") as [h|] eqn:Hh.
    2:{ rewrite gate_missing_header in Hopen by (rewrite Hh; reflexivity).
        discriminate. }
    destruct (JsString.truthy (Some h)) eqn:Ht.
    2:{ rewrite gate_missing_header in Hopen by (rewrite Hh; exact Ht).
        discriminate. }
    assert (Hne : h <> EmptyString) by (intros ->; discriminate).
    destruct (startsWith h "Bearer ") eqn:Hp.
    2:{ rewrite (gate_bad_format request env w h) in Hopen by assumption.
        discriminate. }
    destruct (JsString.truthy (API_KEY env)) eqn:Hk.
    2:{ rewrite (gate_not_configured request env w h) in Hopen by assumption.
        discriminate. }
    destruct (truthy_Some _ Hk) as (c & key & Ekey).
    destruct (String.eqb (slice h 7) (String c key)) eqn:Hs.
    2:{ rewrite (gate_wrong_key request env w h (String c key)) in Hopen
          by (assumption || discriminate).
        discriminate. }
    exists (String c key). repeat apply conj; [exact Ekey | discriminate |].
    unfold presentsKey. rewrite Hh. f_equal.
    apply String.eqb_eq in Hs. rewrite <- Hs.
    exact (startsWith_split "Bearer " h Hp).
  - intros (key & Hk & Hne & Hh).
    rewrite (gate_opens request env w key) by assumption. reflexivity.
Qed.

(** X2: with no API key configured (empty or absent) the worker fails
    closed: every request to a path outside the public list, a preflight
    apart, is refused by the gate with 401 or 500 and no handler runs. *)
Theorem unconfigured_key_fails_closed (request : Request) (env : Env) (w : World) :
  method request <> "OPTIONS" ->
  array_includes publicEndpoints (pathname (url request)) = false ->
  JsString.truthy (API_KEY env) = false ->
  exists response,
    serve request env w = (Returned response, emit AuthGate w) /\
    (status response = 401 \/ status response = 500).
Proof.
  intros Hm Hp Hk. rewrite (fetch_protected JSON_parse toISOString) by assumption.
  destruct (headers_get (headers request) "Authorization") as [h|] eqn:Hh.
  2:{ rewrite gate_missing_header by (rewrite Hh; reflexivity).
      eexists. split; [reflexivity|]. left. reflexivity. }
  destruct (JsString.truthy (Some h)) eqn:Ht.
  2:{ rewrite gate_missing_header by (rewrite Hh; exact Ht).
      eexists. split; [reflexivity|]. left. reflexivity. }
  assert (Hne : h <> EmptyString) by (intros ->; discriminate).
  destruct (startsWith h "Bearer ") eqn:Hb.
  - rewrite (gate_not_configured request env w h) by assumption.
    eexists. split; [reflexivity|]. right. reflexivity.
  - rewrite (gate_bad_format request env w h) by assumption.
    eexists. split; [reflexivity|]. left. reflexivity.
Qed.

Lemma unknown_path_false (path : string) :
  array_includes knownPaths path = false ->
  array_includes publicEndpoints path = false /\
  forall (A : Type) (a b c d e f g h : A),
    (if String.eqb path "/" then a
     else if String.eqb path "/setup" then b
     else if String.eqb path "/credentials" then c
     else if String.eqb path "/callback" then d
     else if String.eqb path "/now-playing" then e
     else if String.eqb path "/recent" then f
     else if String.eqb path "/health" then g
     else h) = h.
Proof.
  unfold array_includes, knownPaths, publicEndpoints. cbn [existsb]. intros H.
  repeat (apply orb_false_elim in H; destruct H as [? H]).
  split.
  - repeat match goal with E : String.eqb _ _ = false |- _ => rewrite E; clear E end.
    reflexivity.
  - intros. repeat match goal with E : String.eqb _ _ = false |- _ => rewrite E; clear E end.
    reflexivity.
Qed.

(** X3: a path that the [switch] does not know is answered 404 [Not Found]
    to a caller who presents the key, and nothing but the gate has run. *)
Theorem unknown_path_not_found
  (request : Request) (env : Env) (w : World) (key : string) :
  method request <> "OPTIONS" ->
  array_includes knownPaths (pathname (url request)) = false ->
  API_KEY env = Some key -> key <> EmptyString ->
  presentsKey request key ->
  serve request env w
  = (Returned (newResponse (Text "Not Found") 404 corsHeaders), emit AuthGate w).
Proof.
  intros Hm Hp Hk Hne Hh. destruct (unknown_path_false _ Hp) as [Hpub Hsw].
  rewrite (fetch_authenticated JSON_parse toISOString request env w key)
    by assumption.
  unfold route. rewrite Hsw. reflexivity.
Qed.

(** *** The stored tokens *)

Lemma getStoredTokens_run (env : Env) (w : World) :
  getStoredTokens JSON_parse env w
  = (readTokens JSON_parse w, emit (KvGet "spotify_tokens") w).
Proof.
  unfold getStoredTokens, readTokens, bind, kv_get.
  destruct (JsString.truthy (stored w "spotify_tokens")); [|reflexivity].
  destruct (JSON_parse _); reflexivity.
Qed.

(** X4: behind the gate the dashboard at [/] is decided by the credentials
    and the stored tokens alone: without both client credentials it
    redirects to [/credentials]; with them it shows [complete] when a
    truthy token record is stored and [credentials_only] otherwise.  The
    tokens are read in either case and nothing is written. *)
Theorem root_dashboard
  (request : Request) (env : Env) (w : World) (key : string) (tokens : Json.t) :
  method request <> "OPTIONS" ->
  pathname (url request) = "/" ->
  API_KEY env = Some key -> key <> EmptyString ->
  presentsKey request key ->
  readTokens JSON_parse w = Returned tokens ->
  serve request env w
  = (Returned
       (if hasCredentials env
        then newResponse (Html (dashboardFor tokens)) 200 htmlHeaders
        else Response_redirect (origin (url request) +:+ "/credentials") 302),
     emit (KvGet "spotify_tokens") (emit AuthGate w)).
Proof.
  intros Hm Hp Hk Hne Hh Hread.
  rewrite (fetch_authenticated JSON_parse toISOString request env w key);
    try assumption; [|rewrite Hp; reflexivity].
  unfold route. rewrite Hp. cbn [String.eqb Ascii.eqb Bool.eqb].
  unfold handleRoot, bind. rewrite getStoredTokens_run.
  change (readTokens JSON_parse (emit AuthGate w)) with (readTokens JSON_parse w).
  rewrite Hread, Hk.
  assert (Ht : JsString.truthy (Some key) = true)
    by (destruct key; [congruence|reflexivity]).
  rewrite Ht. cbn [negb orb]. unfold dashboardFor, URL_resolve.
  destruct (hasCredentials env); reflexivity.
Qed.

(** *** Initiation, further *)

(** X5: a request to [/setup] changes nothing unless it is a POST with both
    client credentials configured: without the credentials every method is
    redirected to [/credentials], with them every method but POST gets the
    setup page; no state is drawn or stored. *)
Theorem setup_without_initiation (request : Request) (env : Env) (w : World) :
  method request <> "OPTIONS" ->
  pathname (url request) = "/setup" ->
  hasCredentials env = false \/ method request <> "POST" ->
  serve request env w
  = (Returned
       (if hasCredentials env
        then newResponse (Html SetupPage) 200 htmlHeaders
        else Response_redirect (origin (url request) +:+ "/credentials") 302),
     w).
Proof.
  intros Hm Hp Hnot.
  rewrite (fetch_public JSON_parse toISOString)
    by (assumption || (rewrite Hp; reflexivity)).
  unfold route. rewrite Hp. cbn [String.eqb Ascii.eqb Bool.eqb].
  unfold handleSetup, URL_resolve.
  destruct (hasCredentials env); cbn [negb]; [|reflexivity].
  destruct Hnot as [?|Hpost]; [discriminate|].
  destruct (String.eqb_spec (method request) "POST"); [contradiction|].
  reflexivity.
Qed.

Lemma charAt_within (p : ascii -> bool) (charset : string) :
  allChars p charset = true ->
  forall i, (i < String.length charset)%nat ->
  exists c, charAt charset i = str1 c /\ p c = true.
Proof.
  induction charset as [|a charset IH]; intros Hall i Hi; simpl in *; [lia|].
  apply andb_prop in Hall as [Ha Hall].
  destruct i as [|i].
  - exists a. auto.
  - apply IH; [exact Hall | lia].
Qed.

(** The loop of the two generators, for any alphabet: [n] characters of the
    alphabet are added and [n] draws are made. *)
Lemma randomChars_within (p : ascii -> bool) (charset : string) :
  charset <> EmptyString ->
  allChars p charset = true ->
  forall (n : nat) (result : string) (w : World),
  exists s,
    randomChars charset n result w
      = (Returned (result +:+ s), Nat.iter n advance w) /\
    String.length s = n /\
    allChars p s = true.
Proof.
  intros Hne Hall. induction n as [|n IH]; intros result w.
  - exists EmptyString. rewrite append_empty_r. repeat apply conj; reflexivity.
  - cbn [randomChars]. unfold bind.
    destruct (random_below_lt (String.length charset) w) as (i & E & Hi).
    { destruct charset; [congruence | simpl; lia]. }
    rewrite E.
    destruct (charAt_within p charset Hall i Hi) as (c & Ec & Hc). rewrite Ec.
    destruct (IH (result +:+ str1 c) (advance w)) as (s & Es & Hl & Ha).
    exists (String c s). rewrite Es, append_assoc, Nat.iter_succ_r.
    repeat apply conj.
    + reflexivity.
    + simpl. rewrite Hl. reflexivity.
    + simpl. rewrite Hc, Ha. reflexivity.
Qed.

(** X6: [generateRandomString(n)] returns exactly [n] alphanumeric
    characters, the empty string for [n = 0], at the cost of [n] draws and
    of nothing else. *)
Theorem generateRandomString_length (n : nat) (w : World) :
  exists s w',
    generateRandomString n w = (Returned s, w') /\
    String.length s = n /\
    allChars isAlnum s = true /\
    cursor w' = (n + cursor w)%nat /\
    SPOTIFY_DATA w' = SPOTIFY_DATA w /\
    trace w' = trace w.
Proof.
  unfold generateRandomString.
  destruct (randomChars_within isAlnum alphanumericCharset) with
    (n := n) (result := EmptyString) (w := w) as (s & E & Hl & Ha);
    [discriminate | reflexivity |].
  destruct (iter_advance_same n w) as (D & _ & T & K).
  exists s, (Nat.iter n advance w). rewrite E.
  repeat apply conj; (reflexivity || assumption).
Qed.

(** X7: [/credentials] shows a page with the origin of the request and a
    suggested key of 64 characters out of letters, digits, [-] and [_];
    the key is drawn afresh on every visit, it is stored nowhere, and the
    answer does not depend on the environment. *)
Theorem credentials_page_suggests_key (request : Request) (env : Env) (w : World) :
  method request <> "OPTIONS" ->
  pathname (url request) = "/credentials" ->
  exists apiKey w',
    serve request env w
    = (Returned (newResponse
                   (Html (CredentialsPage None (origin (url request)) apiKey))
                   200 htmlHeaders), w') /\
    String.length apiKey = 64%nat /\
    allChars isUrlSafe apiKey = true /\
    cursor w' = (64 + cursor w)%nat /\
    SPOTIFY_DATA w' = SPOTIFY_DATA w /\
    trace w' = trace w /\
    forall env', serve request env' w = serve request env w.
Proof.
  intros Hm Hp.
  assert (Hrun : forall e, serve request e w = handleCredentials request e w).
  { intros e. rewrite (fetch_public JSON_parse toISOString)
      by (assumption || (rewrite Hp; reflexivity)).
    unfold route. rewrite Hp. reflexivity. }
  destruct (randomChars_within isUrlSafe apiKeyCharset) with
    (n := 64%nat) (result := EmptyString) (w := w) as (s & E & Hl & Ha);
    [discriminate | reflexivity |].
  destruct (iter_advance_same 64 w) as (D & _ & T & K).
  exists s, (Nat.iter 64 advance w). split.
  - rewrite Hrun. unfold handleCredentials, getCredentialsHTML, bind,
      generateSecureApiKey. rewrite E. reflexivity.
  - repeat apply conj; try assumption. intros env'. rewrite !Hrun. reflexivity.
Qed.

(** *** The callback, further *)

(** X8: a callback that carries an [error] parameter, or lacks the code or
    the state, is answered 400 before the namespace is looked at: the
    [error] is echoed after [OAuth Error: ] and takes precedence over
    everything else in the query, and the world is left untouched. *)
Theorem callback_malformed_rejected (request : Request) (env : Env) (w : World) :
  method request = "GET" ->
  pathname (url request) = "/callback" ->
  JsString.truthy (query request "error") = true
  \/ JsString.truthy (query request "code") = false
  \/ JsString.truthy (query request "state") = false ->
  serve request env w
  = (Returned
       (newResponse
          (Text (if JsString.truthy (query request "error")
                 then "OAuth Error: " +:+ splice (query request "error")
                 else "Missing authorization code or state"))
          400 []),
     w).
Proof.
  intros Hm Hp Hbad.
  rewrite (fetch_callback JSON_parse toISOString),
    (handleCallback_outcome JSON_parse) by assumption.
  unfold callbackOutcome.
  destruct (JsString.truthy (query request "error")); [reflexivity|].
  destruct Hbad as [?|[Hc|Hs]]; [discriminate | rewrite Hc | rewrite Hs].
  - reflexivity.
  - rewrite orb_true_r. reflexivity.
Qed.

(** X9: when a client credential is missing, a callback with a valid state
    is answered 400 without any call to the upstream service, and the state
    stays stored. *)
Theorem callback_without_credentials (request : Request) (env : Env) (w : World) :
  method request = "GET" ->
  pathname (url request) = "/callback" ->
  JsString.truthy (query request "error") = false ->
  JsString.truthy (query request "code") = true ->
  JsString.truthy (query request "state") = true ->
  JsString.truthy (stored w (stateKey (callbackState request))) = true ->
  hasCredentials env = false ->
  serve request env w
  = (Returned
       (newResponse
          (Text ("Token exchange failed: No Spotify credentials configured. "
                 +:+ "Please complete setup first.")) 400 []),
     emit (KvGet (stateKey (callbackState request))) w).
Proof.
  intros Hm Hp He Hc Hs Hst Hcr.
  rewrite (fetch_callback JSON_parse toISOString),
    (handleCallback_outcome JSON_parse) by assumption.
  unfold callbackOutcome. rewrite He, Hc, Hs, Hst, Hcr. reflexivity.
Qed.

(** X10: when the upstream answers the exchange 2xx with a body that is no
    JSON, the callback ends in the exception of [response.json()]: no
    response is produced, nothing is stored and the state is kept. *)
Theorem callback_unreadable_grant_throws
  (request : Request) (env : Env) (w : World) :
  method request = "GET" ->
  pathname (url request) = "/callback" ->
  exchangeAttempted request env w = true ->
  ok (exchangeAnswer request env w) = true ->
  JSON_parse (upstreamBody (exchangeAnswer request env w)) = None ->
  exists w',
    serve request env w = (Thrown "SyntaxError", w') /\
    SPOTIFY_DATA w' = SPOTIFY_DATA w /\
    trace w' =
      ([ Fetch (tokenRequest (callbackCode request) (url request) env);
         KvGet (stateKey (callbackState request)) ] ++ trace w)%list.
Proof.
  intros Hm Hp Hx Hok Hnone.
  rewrite (fetch_callback JSON_parse toISOString),
    (handleCallback_outcome JSON_parse) by assumption.
  unfold callbackOutcome, exchangeAttempted in *.
  repeat (apply andb_prop in Hx; destruct Hx as [Hx ?]).
  apply negb_true_iff in Hx.
  repeat match goal with H : _ = _ |- _ => rewrite H end. cbn [negb orb].
  eexists. repeat apply conj; reflexivity.
Qed.

Lemma stateKey_injective (a b : string) : stateKey a = stateKey b -> a = b.
Proof. unfold stateKey. intros H. cbv [String.append] in H. congruence. Qed.

Lemma stored_elapse_absent (w : World) (key : string) (dt : Z) :
  SPOTIFY_DATA w !! key = None -> stored (elapse dt w) key = None.
Proof. intros H. unfold stored. cbn [SPOTIFY_DATA elapse]. rewrite H. reflexivity. Qed.

(** The world a successful callback leaves. *)
Lemma callback_success_world
  (request : Request) (env : Env) (w : World) (data : Json.t) :
  method request = "GET" ->
  pathname (url request) = "/callback" ->
  exchangeAttempted request env w = true ->
  ok (exchangeAnswer request env w) = true ->
  JSON_parse (upstreamBody (exchangeAnswer request env w)) = Some data ->
  let key := stateKey (callbackState request) in
  SPOTIFY_DATA (snd (serve request env w))
    = delete key (<["spotify_tokens" := tokenRecord w data]> (SPOTIFY_DATA w)) /\
  clock (snd (serve request env w)) = clock w /\
  upstream (snd (serve request env w)) = upstream w /\
  fst (serve request env w)
    = Returned (newResponse (Html OAuthSuccessPage) 200 htmlHeaders).
Proof.
  intros Hm Hp Hx Hok Hdata key.
  rewrite (fetch_callback JSON_parse toISOString),
    (handleCallback_outcome JSON_parse) by assumption.
  unfold callbackOutcome, exchangeAttempted in *.
  repeat (apply andb_prop in Hx; destruct Hx as [Hx ?]).
  apply negb_true_iff in Hx.
  repeat match goal with H : _ = _ |- _ => rewrite H end. cbn [negb orb].
  repeat apply conj; reflexivity.
Qed.

(** X11: a state is good for one successful callback.  After it, a callback
    with the same state, at any later time, with any code and under any
    configuration, is answered 400 without a call to the upstream service
    and without a change to the namespace. *)
Theorem callback_replay_rejected
  (first second : Request) (env env' : Env) (w : World) (data : Json.t) (dt : Z) :
  method first = "GET" ->
  pathname (url first) = "/callback" ->
  exchangeAttempted first env w = true ->
  ok (exchangeAnswer first env w) = true ->
  JSON_parse (upstreamBody (exchangeAnswer first env w)) = Some data ->
  method second = "GET" ->
  pathname (url second) = "/callback" ->
  query second "state" = query first "state" ->
  let w1 := elapse dt (snd (serve first env w)) in
  exists response w2 events,
    serve second env' w1 = (Returned response, w2) /\
    status response = 400 /\
    trace w2 = (events ++ trace w1)%list /\
    existsb isFetch events = false /\
    SPOTIFY_DATA w2 = SPOTIFY_DATA w1.
Proof.
  intros Hm Hp Hx Hok Hdata Hm2 Hp2 Hsame w1.
  destruct (callback_success_world first env w data Hm Hp Hx Hok Hdata)
    as (Hd & _ & _ & _).
  assert (Hgone : stored w1 (stateKey (callbackState second)) = None).
  { unfold w1. apply stored_elapse_absent. rewrite Hd.
    unfold callbackState. rewrite Hsame. apply lookup_delete_eq. }
  rewrite (fetch_callback JSON_parse toISOString),
    (handleCallback_outcome JSON_parse) by assumption.
  unfold callbackOutcome. rewrite Hgone.
  destruct (JsString.truthy (query second "error")).
  { do 2 eexists. exists []. repeat apply conj; reflexivity. }
  destruct (negb _ || negb _).
  { do 2 eexists. exists []. repeat apply conj; reflexivity. }
  cbn [JsString.truthy negb].
  do 2 eexists. eexists [_]. repeat apply conj; reflexivity.
Qed.

(** X12: a state survives a refused exchange.  After a callback whose
    exchange the upstream answered outside 2xx, a further callback with the
    same state and some code is sent upstream again. *)
Theorem callback_retry_after_refusal
  (first second : Request) (env : Env) (w : World) :
  method first = "GET" ->
  pathname (url first) = "/callback" ->
  exchangeAttempted first env w = true ->
  ok (exchangeAnswer first env w) = false ->
  method second = "GET" ->
  pathname (url second) = "/callback" ->
  query second "state" = query first "state" ->
  JsString.truthy (query second "code") = true ->
  JsString.truthy (query second "error") = false ->
  let w1 := snd (serve first env w) in
  exists events,
    trace (snd (serve second env w1)) = (events ++ trace w1)%list /\
    existsb isFetch events = true.
Proof.
  intros Hm Hp Hx Hok Hm2 Hp2 Hsame Hc2 He2 w1.
  assert (Hw1 : w1 = emit (Fetch (tokenRequest (callbackCode first) (url first) env))
                       (emit (KvGet (stateKey (callbackState first))) w)).
  { unfold w1.
    rewrite (fetch_callback JSON_parse toISOString),
      (handleCallback_outcome JSON_parse) by assumption.
    unfold callbackOutcome, exchangeAttempted in *.
    repeat (apply andb_prop in Hx; destruct Hx as [Hx ?]).
    apply negb_true_iff in Hx.
    repeat match goal with H : _ = _ |- _ => rewrite H end. reflexivity. }
  assert (Hx2 : exchangeAttempted second env w1 = true).
  { unfold exchangeAttempted in *.
    repeat (apply andb_prop in Hx; destruct Hx as [Hx ?]).
    rewrite He2, Hc2, Hsame. unfold callbackState in *. rewrite Hsame, Hw1.
    change (stored (emit _ (emit _ w))) with (stored w).
    repeat match goal with H : _ = true |- _ => rewrite H end. reflexivity. }
  rewrite (fetch_callback JSON_parse toISOString) by assumption.
  destruct (exchange_attempted_iff_fetch JSON_parse second env w1)
    as (events & Ht & Hf).
  exists events. rewrite Hf, Hx2. auto.
Qed.

(** X13: a successful callback touches two keys only, [spotify_tokens] and
    its own state: every other pending state is as it was, so that
    redeeming one state does not invalidate another. *)
Theorem callback_spares_other_states
  (request : Request) (env : Env) (w : World) (data : Json.t) (other : string) :
  method request = "GET" ->
  pathname (url request) = "/callback" ->
  exchangeAttempted request env w = true ->
  ok (exchangeAnswer request env w) = true ->
  JSON_parse (upstreamBody (exchangeAnswer request env w)) = Some data ->
  other <> callbackState request ->
  stored (snd (serve request env w)) (stateKey other) = stored w (stateKey other).
Proof.
  intros Hm Hp Hx Hok Hdata Hother.
  destruct (callback_success_world request env w data Hm Hp Hx Hok Hdata)
    as (Hd & Hc & _ & _).
  unfold stored. rewrite Hd, Hc.
  rewrite lookup_delete_ne
    by (intros E; apply Hother; symmetry; apply stateKey_injective, E).
  rewrite lookup_insert_ne
    by (intros E; symmetry in E; revert E; apply stateKey_not_tokens).
  reflexivity.
Qed.

(** *** Initiation and callback together *)

Lemma generateRandomString_run (n : nat) (w : World) :
  exists state,
    generateRandomString n w = (Returned state, Nat.iter n advance w) /\
    String.length state = n.
Proof.
  unfold generateRandomString.
  destruct (randomChars_alphanumeric n EmptyString w) as (state & E & Hl & _).
  exists state. split; [exact E | exact Hl].
Qed.

(** The world an initiation leaves. *)
Lemma setup_post_world (request : Request) (env : Env) (w : World) :
  method request = "POST" ->
  pathname (url request) = "/setup" ->
  hasCredentials env = true ->
  exists state w1,
    serve request env w
    = (Returned (Response_redirect
                   (authorizeUrl env (origin (url request) +:+ "/callback") state)
                   302), w1) /\
    String.length state = 16%nat /\
    SPOTIFY_DATA w1 = <[stateKey state := pendingState w]> (SPOTIFY_DATA w) /\
    clock w1 = clock w /\
    upstream w1 = upstream w.
Proof.
  intros Hm Hp Hc.
  assert (Hrun : serve request env w = handleSetup request env w).
  { rewrite (fetch_public JSON_parse toISOString)
      by (rewrite ?Hm, ?Hp; (discriminate || reflexivity)).
    unfold route. rewrite Hp. reflexivity. }
  destruct (generateRandomString_run 16 w) as (state & E & Hl).
  destruct (iter_advance_same 16 w) as (D & C & _ & _).
  pose proof (iter_advance_upstream 16 w) as U.
  rewrite Hrun, (handleSetup_post request env w _ state Hm Hc E).
  exists state. eexists. split; [reflexivity|].
  rewrite data_after_put, clock_after_put, upstream_after_put, D, C, U.
  repeat apply conj; (reflexivity || assumption).
Qed.

Lemma nonempty_truthy (s : string) :
  (0 < String.length s)%nat -> JsString.truthy (Some s) = true.
Proof. destruct s; simpl; [lia | reflexivity]. Qed.

(** X14: the state that an initiation issues can be redeemed for 600
    seconds.  A callback that brings it back earlier passes the state check
    and is sent upstream; from 600 seconds on it is answered 400 as invalid
    or expired, without a call upstream. *)
Theorem issued_state_lives_600_seconds
  (setup : Request) (env : Env) (w : World) :
  method setup = "POST" ->
  pathname (url setup) = "/setup" ->
  hasCredentials env = true ->
  exists state w1,
    fst (serve setup env w)
    = Returned (Response_redirect
                  (authorizeUrl env (origin (url setup) +:+ "/callback") state) 302) /\
    snd (serve setup env w) = w1 /\
    forall (request : Request) (dt : Z),
      method request = "GET" ->
      pathname (url request) = "/callback" ->
      query request "state" = Some state ->
      JsString.truthy (query request "code") = true ->
      JsString.truthy (query request "error") = false ->
      0 <= dt ->
      (dt < 600000 ->
       exists events,
         trace (snd (serve request env (elapse dt w1)))
           = (events ++ trace (elapse dt w1))%list /\
         existsb isFetch events = true) /\
      (600000 <= dt ->
       serve request env (elapse dt w1)
       = (Returned (newResponse (Text "Invalid or expired state parameter") 400 []),
          emit (KvGet (stateKey state)) (elapse dt w1))).
Proof.
  intros Hm Hp Hc.
  destruct (setup_post_world setup env w Hm Hp Hc) as (state & w1 & Hrun & Hl & D & C & _).
  exists state, w1. rewrite Hrun. repeat apply conj; try reflexivity.
  intros request dt Hm2 Hp2 Hs Hcode Herr Hdt.
  assert (Hstate : callbackState request = state)
    by (unfold callbackState; rewrite Hs; reflexivity).
  assert (Hst : stored (elapse dt w1) (stateKey state)
                = if dt <? 600000 then Some "pending" else None).
  { unfold stored. cbn [SPOTIFY_DATA clock elapse]. rewrite D, C, lookup_insert_eq.
    unfold live, pendingState. cbn [expiration value].
    destruct (Z.ltb_spec dt 600000).
    - rewrite (proj2 (Z.ltb_lt _ _)) by lia. reflexivity.
    - rewrite (proj2 (Z.ltb_ge _ _)) by lia. reflexivity. }
  assert (Hts : JsString.truthy (query request "state") = true)
    by (rewrite Hs; apply nonempty_truthy; lia).
  split.
  - intros Hlt.
    rewrite (fetch_callback JSON_parse toISOString) by assumption.
    destruct (exchange_attempted_iff_fetch JSON_parse request env (elapse dt w1))
      as (events & Ht & Hf).
    exists events. split; [exact Ht|]. rewrite Hf.
    unfold exchangeAttempted. rewrite Herr, Hcode, Hts, Hstate, Hst, Hc.
    rewrite (proj2 (Z.ltb_lt _ _)) by lia. reflexivity.
  - intros Hge.
    rewrite (fetch_callback JSON_parse toISOString),
      (handleCallback_outcome JSON_parse) by assumption.
    unfold callbackOutcome. rewrite Herr, Hcode, Hts, Hstate, Hst.
    rewrite (proj2 (Z.ltb_ge _ _)) by lia. reflexivity.
Qed.

(** X15: an initiation writes one key, the one of its state: every other
    key, the stored tokens among them, answers as before. *)
Theorem initiation_spares_other_keys
  (request : Request) (env : Env) (w : World) :
  method request = "POST" ->
  pathname (url request) = "/setup" ->
  hasCredentials env = true ->
  let w1 := snd (serve request env w) in
  stored w1 "spotify_tokens" = stored w "spotify_tokens" /\
  exists state,
    forall key, key <> stateKey state -> stored w1 key = stored w key.
Proof.
  intros Hm Hp Hc w1.
  destruct (setup_post_world request env w Hm Hp Hc)
    as (state & w1' & Hrun & _ & D & C & _).
  assert (Hframe : forall key, key <> stateKey state -> stored w1 key = stored w key).
  { intros key Hne. unfold w1. rewrite Hrun. cbn [snd]. unfold stored.
    rewrite D, C, lookup_insert_ne by congruence. reflexivity. }
  split; [|exists state; exact Hframe].
  apply Hframe. intros E. symmetry in E. revert E. apply stateKey_not_tokens.
Qed.

(** *** The data endpoints *)

Lemma fetch_now_playing
  (request : Request) (env : Env) (w : World) (key : string) :
  method request <> "OPTIONS" ->
  pathname (url request) = "/now-playing" ->
  API_KEY env = Some key -> key <> EmptyString ->
  presentsKey request key ->
  serve request env w = handleNowPlaying JSON_parse request env (emit AuthGate w).
Proof.
  intros Hm Hp Hk Hne Hh.
  rewrite (fetch_authenticated JSON_parse toISOString request env w key);
    try assumption; [|rewrite Hp; reflexivity].
  unfold route. rewrite Hp. reflexivity.
Qed.

Lemma fetch_recent
  (request : Request) (env : Env) (w : World) (key : string) :
  method request <> "OPTIONS" ->
  pathname (url request) = "/recent" ->
  API_KEY env = Some key -> key <> EmptyString ->
  presentsKey request key ->
  serve request env w = handleRecent JSON_parse request env (emit AuthGate w).
Proof.
  intros Hm Hp Hk Hne Hh.
  rewrite (fetch_authenticated JSON_parse toISOString request env w key);
    try assumption; [|rewrite Hp; reflexivity].
  unfold route. rewrite Hp. reflexivity.
Qed.





Lemma token_reader_cases (path : string) :
  array_includes tokenReaders path = true ->
  path = "/" \/ path = "/now-playing" \/ path = "/recent" \/ path = "/health".
Proof.
  unfold array_includes, tokenReaders. cbn [existsb]. intros H.
  repeat (apply orb_prop in H; destruct H as [H|H];
          [apply String.eqb_eq in H; auto|]).
  discriminate.
Qed.

(** X18: an exception in a handler is not turned into the 500 of the
    [catch] in [fetch].  When the text stored under [spotify_tokens] is no
    JSON, every endpoint that reads the tokens ([/], [/now-playing],
    [/recent] for a caller with the key, [/health] for anyone) ends in the
    exception of [JSON.parse] instead of a response. *)
Theorem unreadable_record_escapes_catch
  (request : Request) (env : Env) (w : World) (key error : string) :
  method request <> "OPTIONS" ->
  array_includes tokenReaders (pathname (url request)) = true ->
  readTokens JSON_parse w = Thrown error ->
  pathname (url request) = "/health"
  \/ (API_KEY env = Some key /\ key <> EmptyString /\ presentsKey request key) ->
  fst (serve request env w) = Thrown error.
Proof.
  intros Hm Hp Hread Hauth.
  destruct (token_reader_cases _ Hp) as [E|[E|[E|E]]].
  - destruct Hauth as [H|(Hk & Hne & Hh)]; [congruence|].
    rewrite (fetch_authenticated JSON_parse toISOString request env w key);
      try assumption; [|rewrite E; reflexivity].
    unfold route. rewrite E. cbn [String.eqb Ascii.eqb Bool.eqb].
    unfold handleRoot, bind. rewrite getStoredTokens_run.
    change (readTokens JSON_parse (emit AuthGate w)) with (readTokens JSON_parse w).
    rewrite Hread. reflexivity.
  - destruct Hauth as [H|(Hk & Hne & Hh)]; [congruence|].
    rewrite (fetch_now_playing request env w key) by assumption.
    unfold handleNowPlaying, bind. rewrite getStoredTokens_run.
    change (readTokens JSON_parse (emit AuthGate w)) with (readTokens JSON_parse w).
    rewrite Hread. reflexivity.
  - destruct Hauth as [H|(Hk & Hne & Hh)]; [congruence|].
    rewrite (fetch_recent request env w key) by assumption.
    unfold handleRecent, bind. rewrite getStoredTokens_run.
    change (readTokens JSON_parse (emit AuthGate w)) with (readTokens JSON_parse w).
    rewrite Hread. reflexivity.
  - rewrite (fetch_public JSON_parse toISOString)
      by (assumption || (rewrite E; reflexivity)).
    unfold route. rewrite E. cbn [String.eqb Ascii.eqb Bool.eqb].
    unfold handleHealth, bind. rewrite getStoredTokens_run, Hread. reflexivity.
Qed.

(** X19: [/health] reports flags, not values.  Its answer is the same under
    two environments that agree on the label and on which secrets are
    present, and in two worlds that agree on the clock and on whether the
    stored tokens are [null]: neither the API key, nor the client
    credentials, nor the content of the tokens has any influence on it. *)
Theorem health_reveals_flags_only
  (request : Request) (env1 env2 : Env) (w1 w2 : World) (t1 t2 : Json.t) :
  method request <> "OPTIONS" ->
  pathname (url request) = "/health" ->
  sameFlags env1 env2 ->
  clock w1 = clock w2 ->
  readTokens JSON_parse w1 = Returned t1 ->
  readTokens JSON_parse w2 = Returned t2 ->
  isNull t1 = isNull t2 ->
  exists response,
    fst (serve request env1 w1) = Returned response /\
    fst (serve request env2 w2) = Returned response /\
    status response = 200.
Proof.
  intros Hm Hp (Hk & Hi & Hs & He) Hc H1 H2 Hn.
  rewrite !(fetch_public JSON_parse toISOString)
    by (assumption || (rewrite Hp; reflexivity)).
  unfold route. rewrite Hp. cbn [String.eqb Ascii.eqb Bool.eqb].
  unfold handleHealth, bind. rewrite !getStoredTokens_run, H1, H2.
  unfold Date_now, hasCredentials. cbn [clock emit fst ret].
  rewrite Hk, Hi, Hs, He, Hc.
  replace (match t1 with JNull => false | _ => true end) with (negb (isNull t1))
    by (destruct t1; reflexivity).
  replace (match t2 with JNull => false | _ => true end) with (negb (isNull t2))
    by (destruct t2; reflexivity).
  rewrite Hn. eexists. repeat apply conj; reflexivity.
Qed.

(** *** What every request leaves alone *)

Lemma gate_decides (request : Request) (env : Env) (w : World) :
  exists decision, requireApiKey request env w = (Returned decision, emit AuthGate w).
Proof.
  unfold requireApiKey, bind, mark.
  repeat match goal with
         | |- context [if ?b then _ else _] => destruct b
         end; eexists; reflexivity.
Qed.

(** The four ways through [fetch]: the preflight, the public path, the
    refusal of the gate, the protected path behind the gate. *)
Lemma fetch_cases (request : Request) (env : Env) (w : World) :
  serve request env w = (Returned (newResponse NoBody 200 corsHeaders), w)
  \/ serve request env w = dispatch request env w
  \/ (exists denied, serve request env w = (Returned denied, emit AuthGate w))
  \/ serve request env w = dispatch request env (emit AuthGate w).
Proof.
  destruct (String.eqb_spec (method request) "OPTIONS") as [Em|Hm].
  { left. unfold fetch. rewrite Em. reflexivity. }
  destruct (array_includes publicEndpoints (pathname (url request))) eqn:Hp.
  { right. left. apply fetch_public; assumption. }
  right. right. rewrite (fetch_protected JSON_parse toISOString) by assumption.
  destruct (gate_decides request env w) as ([denied|] & ->).
  - left. eexists. reflexivity.
  - right. reflexivity.
Qed.

(** What a computation leaves in the namespace, compositionally. *)

Lemma leavesData_ret {A} (a : A) : leavesData (ret a).
Proof. intros w. reflexivity. Qed.

Lemma leavesData_throw {A} (e : string) : leavesData (@throw A e).
Proof. intros w. reflexivity. Qed.

Lemma leavesData_bind {A B} (m : Async A) (k : A -> Async B) :
  leavesData m -> (forall a, leavesData (k a)) -> leavesData (bind m k).
Proof.
  intros Hm Hk w. unfold bind. specialize (Hm w).
  destruct (m w) as [[a|e] w1]; simpl in Hm.
  - rewrite (Hk a w1). exact Hm.
  - exact Hm.
Qed.

Lemma leavesData_kv_get (key : string) : leavesData (kv_get key).
Proof. intros w. reflexivity. Qed.

Lemma leavesData_fetch (req : FetchRequest) : leavesData (upstream_fetch req).
Proof. intros w. reflexivity. Qed.

Lemma leavesData_random (n : nat) : leavesData (random_below n).
Proof. intros w. reflexivity. Qed.

Lemma leavesData_now : leavesData Date_now.
Proof. intros w. reflexivity. Qed.

Lemma leavesData_randomChars (charset : string) (n : nat) (result : string) :
  leavesData (randomChars charset n result).
Proof.
  revert result. induction n as [|n IH]; intros result; simpl.
  - apply leavesData_ret.
  - apply leavesData_bind; [apply leavesData_random | intros i; apply IH].
Qed.

Create HintDb reads.

#[local] Hint Resolve leavesData_ret leavesData_throw leavesData_kv_get
  leavesData_fetch leavesData_random leavesData_now leavesData_randomChars
  : reads.

#[local] Hint Resolve emitsOnly_ret emitsOnly_throw emitsOnly_kv_get
  emitsOnly_fetch emitsOnly_random emitsOnly_now emitsOnly_randomChars
  : reads.

(** Walks through a handler that only reads. *)
Ltac reads_walk :=
  repeat first
    [ apply leavesData_bind; [| intros ?]
    | apply emitsOnly_bind; [| intros ?]
    | match goal with
      | |- leavesData (if ?b then _ else _) => destruct b
      | |- leavesData (match ?x with _ => _ end) => destruct x
      | |- emitsOnly _ (if ?b then _ else _) => destruct b
      | |- emitsOnly _ (match ?x with _ => _ end) => destruct x
      end
    | solve [auto with reads] ].

(** The handlers of every path but [/setup] and [/callback] only read. *)
Lemma route_only_reads (request : Request) (env : Env) :
  pathname (url request) <> "/setup" ->
  pathname (url request) <> "/callback" ->
  leavesData (dispatch request env) /\
  emitsOnly besidesMutation (dispatch request env).
Proof.
  intros Hs Hc. unfold route.
  destruct (String.eqb_spec (pathname (url request)) "/setup"); [contradiction|].
  destruct (String.eqb_spec (pathname (url request)) "/callback"); [contradiction|].
  unfold handleRoot, handleCredentials, handleNowPlaying, handleRecent,
    handleHealth, getStoredTokens, getCredentialsHTML, generateSecureApiKey,
    callSpotifyAPI, response_json, Response_new.
  split; repeat match goal with
                | |- context [String.eqb ?a ?b] => destruct (String.eqb a b)
                end; reads_walk.
Qed.

(** X20: the namespace is written by an initiation and by a callback only.
    Whatever the method, the headers, the configuration and the answers of
    the upstream, a request to any other path leaves the namespace exactly
    as it was and performs neither a put nor a delete: the data endpoints
    never refresh, replace or drop the stored tokens. *)
Theorem only_setup_and_callback_write (request : Request) (env : Env) (w : World) :
  pathname (url request) <> "/setup" ->
  pathname (url request) <> "/callback" ->
  SPOTIFY_DATA (snd (serve request env w)) = SPOTIFY_DATA w /\
  exists events,
    trace (snd (serve request env w)) = (events ++ trace w)%list /\
    existsb isMutation events = false.
Proof.
  intros Hs Hc.
  destruct (route_only_reads request env Hs Hc) as [Hdata Hemits].
  assert (Hquiet : forall events, forallb besidesMutation events = true ->
                                  existsb isMutation events = false).
  { induction events as [|e events IH]; [reflexivity|]. simpl. intros H.
    apply andb_prop in H as [He H]. rewrite (IH H).
    unfold besidesMutation in He. apply negb_true_iff in He. rewrite He.
    reflexivity. }
  destruct (fetch_cases request env w) as [E|[E|[[denied E]|E]]]; rewrite E.
  - split; [reflexivity|]. exists []. auto.
  - split; [apply Hdata|]. destruct (Hemits w) as (events & Ht & Hf).
    exists events. auto.
  - split; [reflexivity|]. exists [AuthGate]. auto.
  - split; [apply (Hdata (emit AuthGate w))|].
    destruct (Hemits (emit AuthGate w)) as (events & Ht & Hf).
    exists (events ++ [AuthGate])%list. split.
    + rewrite Ht. cbn [trace emit]. rewrite <- app_assoc. reflexivity.
    + rewrite existsb_app, (Hquiet _ Hf). reflexivity.
Qed.

(** How often a computation calls upstream, compositionally. *)

Lemma callsAtMost_quiet {A} (n : nat) (m : Async A) :
  (forall w, trace (snd (m w)) = trace w) -> callsAtMost n m.
Proof. intros H w. exists []. split; [apply H | simpl; lia]. Qed.

Lemma upstreamCalls_app (l1 l2 : list Event) :
  upstreamCalls (l1 ++ l2) = (upstreamCalls l1 + upstreamCalls l2)%nat.
Proof.
  induction l1 as [|[] l1 IH]; simpl; rewrite ?IH; reflexivity.
Qed.

Lemma callsAtMost_bind {A B} (a b : nat) (m : Async A) (k : A -> Async B) :
  callsAtMost a m -> (forall x, callsAtMost b (k x)) ->
  callsAtMost (a + b) (bind m k).
Proof.
  intros Hm Hk w. unfold bind.
  destruct (Hm w) as (ev1 & T1 & C1).
  destruct (m w) as [[x|e] w1]; simpl in T1.
  - destruct (Hk x w1) as (ev2 & T2 & C2).
    exists (ev2 ++ ev1)%list. split.
    + rewrite T2, T1. apply app_assoc.
    + rewrite upstreamCalls_app. lia.
  - exists ev1. split; [exact T1 | lia].
Qed.

Lemma callsAtMost_fetch (n : nat) (req : FetchRequest) :
  callsAtMost (S n) (upstream_fetch req).
Proof. intros w. exists [Fetch req]. split; [reflexivity | simpl; lia]. Qed.

Lemma callsAtMost_kv_put (n : nat) (key val : string) (ttl : option Z) :
  callsAtMost n (kv_put key val ttl).
Proof. intros w. exists [KvPut key val ttl]. split; [reflexivity | simpl; lia]. Qed.

Lemma callsAtMost_kv_delete (n : nat) (key : string) :
  callsAtMost n (kv_delete key).
Proof. intros w. exists [KvDelete key]. split; [reflexivity | simpl; lia]. Qed.

Lemma callsAtMost_ret {A} (n : nat) (a : A) : callsAtMost n (ret a).
Proof. apply callsAtMost_quiet. reflexivity. Qed.

Lemma callsAtMost_throw {A} (n : nat) (e : string) : callsAtMost n (@throw A e).
Proof. apply callsAtMost_quiet. reflexivity. Qed.

Lemma callsAtMost_kv_get (n : nat) (key : string) : callsAtMost n (kv_get key).
Proof. intros w. exists [KvGet key]. split; [reflexivity | simpl; lia]. Qed.

Lemma callsAtMost_now (n : nat) : callsAtMost n Date_now.
Proof. apply callsAtMost_quiet. reflexivity. Qed.

Lemma callsAtMost_random (n count : nat) : callsAtMost n (random_below count).
Proof. apply callsAtMost_quiet. reflexivity. Qed.

Lemma callsAtMost_randomChars (n : nat) (charset : string) (count : nat)
  (result : string) :
  callsAtMost n (randomChars charset count result).
Proof.
  revert result. induction count as [|count IH]; intros result; simpl.
  - apply callsAtMost_ret.
  - apply (callsAtMost_bind 0 n); [apply callsAtMost_random | intros i; apply IH].
Qed.

(** Walks through a handler, counting: a bind whose first part makes no
    call leaves the whole count to the rest; otherwise the first part takes
    the one call. *)
Ltac calls_walk :=
  repeat first
    [ apply callsAtMost_ret
    | apply callsAtMost_throw
    | apply callsAtMost_kv_get
    | apply callsAtMost_now
    | apply callsAtMost_fetch
    | apply callsAtMost_kv_put
    | apply callsAtMost_kv_delete
    | apply callsAtMost_randomChars
    | match goal with
      | |- callsAtMost _ (if ?b then _ else _) => destruct b
      | |- callsAtMost _ (match ?x with _ => _ end) => destruct x
      | |- callsAtMost 0 (bind _ _) => apply (callsAtMost_bind 0 0); [| intros ?]
      | |- callsAtMost 1 (bind _ _) =>
          first [ apply (callsAtMost_bind 0 1); [solve [calls_walk] | intros ?]
                | apply (callsAtMost_bind 1 0); [| intros ?] ]
      end ].

Lemma route_calls_once (request : Request) (env : Env) :
  callsAtMost 1 (dispatch request env).
Proof.
  unfold route, handleRoot, handleSetup, handleCredentials, handleCallback,
    handleNowPlaying, handleRecent, handleHealth, getStoredTokens,
    getCredentialsHTML, getSetupHTML, generateSecureApiKey, generateRandomString,
    exchangeCodeForTokens, callSpotifyAPI, response_json, Response_new.
  repeat match goal with
         | |- context [String.eqb (pathname _) ?b] =>
             destruct (String.eqb (pathname (url request)) b)
         end; calls_walk.
Qed.

(** X21: no request makes more than one call to the upstream service,
    whatever the upstream answers: nothing is retried, and no second call
    follows a first. *)
Theorem at_most_one_upstream_call (request : Request) (env : Env) (w : World) :
  exists events,
    trace (snd (serve request env w)) = (events ++ trace w)%list /\
    (upstreamCalls events <= 1)%nat.
Proof.
  destruct (fetch_cases request env w) as [E|[E|[[denied E]|E]]]; rewrite E.
  - exists []. split; [reflexivity | simpl; lia].
  - apply route_calls_once.
  - exists [AuthGate]. split; [reflexivity | simpl; lia].
  - destruct (route_calls_once request env (emit AuthGate w)) as (events & Ht & Hc).
    exists (events ++ [AuthGate])%list. split.
    + rewrite Ht. cbn [trace emit]. rewrite <- app_assoc. reflexivity.
    + rewrite upstreamCalls_app. simpl. lia.
Qed.

(** X22: the tokens that a callback stores are served back for 3600 seconds
    and then are gone: from that moment on [/now-playing] answers 401 with
    the setup-incomplete message and makes no call upstream, although
    nothing has deleted the record and nothing has tried to refresh it. *)
Theorem stored_tokens_last_3600_seconds
  (first request : Request) (env env' : Env) (w : World) (data : Json.t)
  (key : string) (dt : Z) :
  method first = "GET" ->
  pathname (url first) = "/callback" ->
  exchangeAttempted first env w = true ->
  ok (exchangeAnswer first env w) = true ->
  JSON_parse (upstreamBody (exchangeAnswer first env w)) = Some data ->
  method request <> "OPTIONS" ->
  pathname (url request) = "/now-playing" ->
  API_KEY env' = Some key -> key <> EmptyString ->
  presentsKey request key ->
  0 <= dt ->
  let w1 := elapse dt (snd (serve first env w)) in
  (dt < 3600000 -> stored w1 "spotify_tokens" = Some (stringify data)) /\
  (3600000 <= dt ->
   serve request env' w1
   = (Returned noTokensResponse, emit (KvGet "spotify_tokens") (emit AuthGate w1))).
Proof.
  intros Hm Hp Hx Hok Hdata Hm2 Hp2 Hk Hne Hh Hdt w1.
  destruct (callback_success_world first env w data Hm Hp Hx Hok Hdata)
    as (Hd & Hc & _ & _).
  assert (Hst : stored w1 "spotify_tokens"
                = if dt <? 3600000 then Some (stringify data) else None).
  { unfold w1, stored. cbn [SPOTIFY_DATA clock elapse]. rewrite Hd, Hc.
    rewrite lookup_delete_ne by apply stateKey_not_tokens.
    rewrite lookup_insert_eq. unfold live, tokenRecord. cbn [expiration value].
    destruct (Z.ltb_spec dt 3600000).
    - rewrite (proj2 (Z.ltb_lt _ _)) by lia. reflexivity.
    - rewrite (proj2 (Z.ltb_ge _ _)) by lia. reflexivity. }
  split.
  - intros Hlt. rewrite Hst, (proj2 (Z.ltb_lt _ _)) by lia. reflexivity.
  - intros Hge. rewrite (fetch_now_playing request env' w1 key) by assumption.
    unfold handleNowPlaying, bind. rewrite getStoredTokens_run.
    unfold readTokens.
    change (stored (emit AuthGate w1) "spotify_tokens")
      with (stored w1 "spotify_tokens").
    rewrite Hst, (proj2 (Z.ltb_ge _ _)) by lia. reflexivity.
Qed.

Lemma toSpotify_api (endpoint token : string) :
  startsWith ("https://api.spotify.com" +:+ endpoint)
    "https://api.spotify.com/v1/me/player/" = true ->
  toSpotify (Fetch (apiRequest endpoint token)) = true.
Proof.
  intros H. unfold toSpotify, apiRequest. cbn [fetchUrl fetchHeaders]. rewrite H.
  change (headers_get _ "Authorization") with (Some ("Bearer " +:+ token)).
  change (splice (Some ("Bearer " +:+ token))) with ("Bearer " +:+ token).
  rewrite startsWith_app. apply orb_true_r.
Qed.

(** Walks through any handler, checking each event it may emit. *)
Ltac events_walk :=
  repeat first
    [ apply emitsOnly_bind; [| intros ?]
    | apply emitsOnly_ret
    | apply emitsOnly_throw
    | apply emitsOnly_now
    | apply emitsOnly_randomChars
    | apply emitsOnly_kv_get; reflexivity
    | apply emitsOnly_kv_put; reflexivity
    | apply emitsOnly_kv_delete; reflexivity
    | apply emitsOnly_fetch; first [reflexivity | apply toSpotify_api; reflexivity]
    | match goal with
      | |- emitsOnly _ (if ?b then _ else _) => destruct b
      | |- emitsOnly _ (match ?x with _ => _ end) => destruct x
      end ].

Lemma route_calls_spotify (request : Request) (env : Env) :
  emitsOnly toSpotify (dispatch request env).
Proof.
  unfold route, handleRoot, handleSetup, handleCredentials, handleCallback,
    handleNowPlaying, handleRecent, handleHealth, getStoredTokens,
    getCredentialsHTML, getSetupHTML, generateSecureApiKey, generateRandomString,
    exchangeCodeForTokens, callSpotifyAPI, response_json, Response_new.
  repeat match goal with
         | |- context [String.eqb (pathname _) ?b] =>
             destruct (String.eqb (pathname (url request)) b)
         end; events_walk.
Qed.

(** X23: whatever the request, the worker calls nothing but Spotify: every
    call upstream goes either to the token endpoint of the accounts
    service, or to the player API under [api.spotify.com] with a bearer
    token.  The client credentials, which travel as Basic authorization,
    therefore reach the token endpoint only. *)
Theorem every_call_goes_to_spotify (request : Request) (env : Env) (w : World) :
  exists events,
    trace (snd (serve request env w)) = (events ++ trace w)%list /\
    forallb toSpotify events = true.
Proof.
  destruct (fetch_cases request env w) as [E|[E|[[denied E]|E]]]; rewrite E.
  - exists []. split; reflexivity.
  - apply route_calls_spotify.
  - exists [AuthGate]. split; reflexivity.
  - destruct (route_calls_spotify request env (emit AuthGate w))
      as (events & Ht & Hf).
    exists (events ++ [AuthGate])%list. split.
    + rewrite Ht. cbn [trace emit]. rewrite <- app_assoc. reflexivity.
    + rewrite forallb_app, Hf. reflexivity.
Qed.

End Further.

(** ** The further properties at work *)

Lemma unconfigured_key_fails_closed_witness :
  exists response,
    fetch sampleParse samplePrint wrongKeyRequest (envWithKey (Some EmptyString))
      emptyWorld
    = (Returned response, emit AuthGate emptyWorld) /\
    (status response = 401 \/ status response = 500).
Proof.
  apply (unconfigured_key_fails_closed sampleParse samplePrint wrongKeyRequest
           (envWithKey (Some EmptyString)) emptyWorld);
    [discriminate | reflexivity | reflexivity].
Defined.

Lemma unknown_path_not_found_witness :
  fetch sampleParse samplePrint (bearerRequest "/favicon.ico" "key-1234")
    sampleEnv emptyWorld
  = (Returned (newResponse (Text "Not Found") 404 corsHeaders),
     emit AuthGate emptyWorld).
Proof.
  apply (unknown_path_not_found sampleParse samplePrint
           (bearerRequest "/favicon.ico" "key-1234") sampleEnv emptyWorld
           "key-1234");
    [discriminate | reflexivity | reflexivity | discriminate | reflexivity].
Defined.

Lemma root_dashboard_witness :
  fst (fetch sampleParse samplePrint (bearerRequest "/" "key-1234") sampleEnv
         (sampleWorld tokensStored upstreamGrants))
  = Returned (newResponse
                (Html (RootPage "complete" "/now-playing" "View Now Playing"))
                200 htmlHeaders).
Proof.
  rewrite (root_dashboard sampleParse samplePrint (bearerRequest "/" "key-1234")
             sampleEnv (sampleWorld tokensStored upstreamGrants) "key-1234"
             sampleTokens);
    [reflexivity | discriminate | reflexivity | reflexivity | discriminate
    | reflexivity | vm_compute; reflexivity].
Defined.

Lemma setup_without_initiation_witness :
  fetch sampleParse samplePrint setupPost envWithoutSpotify emptyWorld
  = (Returned (Response_redirect "https://proxy.example.workers.dev/credentials" 302),
     emptyWorld).
Proof.
  apply (setup_without_initiation sampleParse samplePrint setupPost
           envWithoutSpotify emptyWorld);
    [discriminate | reflexivity | left; reflexivity].
Defined.

Lemma credentials_page_suggests_key_witness :
  exists apiKey w',
    fetch sampleParse samplePrint
      (sampleRequest "GET" "/credentials" [] []) sampleEnv emptyWorld
    = (Returned (newResponse
                   (Html (CredentialsPage None "https://proxy.example.workers.dev"
                            apiKey))
                   200 htmlHeaders), w') /\
    String.length apiKey = 64%nat /\
    SPOTIFY_DATA w' = ∅.
Proof.
  destruct (credentials_page_suggests_key sampleParse samplePrint
              (sampleRequest "GET" "/credentials" [] []) sampleEnv emptyWorld)
    as (apiKey & w' & Hrun & Hlen & _ & _ & Hdata & _);
    [discriminate | reflexivity |].
  exists apiKey, w'. repeat apply conj; assumption.
Defined.

Lemma callback_malformed_rejected_witness :
  fetch sampleParse samplePrint callbackDenied sampleEnv
    (sampleWorld pendingXyz upstreamGrants)
  = (Returned (newResponse (Text "OAuth Error: access_denied") 400 []),
     sampleWorld pendingXyz upstreamGrants).
Proof.
  apply (callback_malformed_rejected sampleParse samplePrint callbackDenied
           sampleEnv (sampleWorld pendingXyz upstreamGrants));
    [reflexivity | reflexivity | left; reflexivity].
Defined.

Lemma callback_without_credentials_witness :
  fetch sampleParse samplePrint callbackXyz envWithoutSpotify
    (sampleWorld pendingXyz upstreamGrants)
  = (Returned
       (newResponse
          (Text ("Token exchange failed: No Spotify credentials configured. "
                 +:+ "Please complete setup first.")) 400 []),
     emit (KvGet "oauth_state_xyz") (sampleWorld pendingXyz upstreamGrants)).
Proof.
  apply (callback_without_credentials sampleParse samplePrint callbackXyz
           envWithoutSpotify (sampleWorld pendingXyz upstreamGrants));
    vm_compute; reflexivity.
Defined.

Lemma callback_unreadable_grant_throws_witness :
  exists w',
    fetch sampleParse samplePrint callbackXyz sampleEnv
      (sampleWorld pendingXyz upstreamGarbles) = (Thrown "SyntaxError", w') /\
    SPOTIFY_DATA w' = pendingXyz.
Proof.
  destruct (callback_unreadable_grant_throws sampleParse samplePrint callbackXyz
              sampleEnv (sampleWorld pendingXyz upstreamGarbles))
    as (w' & Hrun & Hdata & _); try (vm_compute; reflexivity).
  exists w'. split; assumption.
Defined.

Lemma callback_replay_rejected_witness :
  exists response w2,
    fetch sampleParse samplePrint callbackXyz sampleEnv
      (elapse 5000
         (snd (fetch sampleParse samplePrint callbackXyz sampleEnv
                 (sampleWorld pendingXyz upstreamGrants))))
    = (Returned response, w2) /\
    status response = 400.
Proof.
  destruct (callback_replay_rejected sampleParse samplePrint callbackXyz
              callbackXyz sampleEnv sampleEnv
              (sampleWorld pendingXyz upstreamGrants) sampleTokens 5000)
    as (response & w2 & events & Hrun & Hstatus & _);
    try (vm_compute; reflexivity).
  exists response, w2. split; assumption.
Defined.

Lemma callback_retry_after_refusal_witness :
  exists events,
    trace (snd (fetch sampleParse samplePrint callbackXyz sampleEnv
                  (snd (fetch sampleParse samplePrint callbackXyz sampleEnv
                          (sampleWorld pendingXyz upstreamRefuses)))))
    = (events ++
       trace (snd (fetch sampleParse samplePrint callbackXyz sampleEnv
                     (sampleWorld pendingXyz upstreamRefuses))))%list /\
    existsb isFetch events = true.
Proof.
  apply (callback_retry_after_refusal sampleParse samplePrint callbackXyz
           callbackXyz sampleEnv (sampleWorld pendingXyz upstreamRefuses));
    vm_compute; reflexivity.
Defined.

Lemma callback_spares_other_states_witness :
  stored (snd (fetch sampleParse samplePrint callbackXyz sampleEnv
                 (sampleWorld pendingTwo upstreamGrants))) (stateKey "abc")
  = Some "pending".
Proof.
  rewrite (callback_spares_other_states sampleParse samplePrint callbackXyz
             sampleEnv (sampleWorld pendingTwo upstreamGrants) sampleTokens "abc");
    try (vm_compute; reflexivity).
  vm_compute. discriminate.
Defined.

Lemma issued_state_lives_600_seconds_witness :
  exists state,
    fst (fetch sampleParse samplePrint setupPost sampleEnv emptyWorld)
    = Returned (Response_redirect
                  (authorizeUrl sampleEnv
                     "https://proxy.example.workers.dev/callback" state) 302) /\
    (exists events,
       let w1 := elapse 599999
                   (snd (fetch sampleParse samplePrint setupPost sampleEnv
                           emptyWorld)) in
       trace (snd (fetch sampleParse samplePrint (callbackWith state) sampleEnv w1))
       = (events ++ trace w1)%list /\
       existsb isFetch events = true) /\
    fst (fetch sampleParse samplePrint (callbackWith state) sampleEnv
           (elapse 600000
              (snd (fetch sampleParse samplePrint setupPost sampleEnv emptyWorld))))
    = Returned (newResponse (Text "Invalid or expired state parameter") 400 []).
Proof.
  destruct (issued_state_lives_600_seconds sampleParse samplePrint setupPost
              sampleEnv emptyWorld eq_refl eq_refl eq_refl)
    as (state & w1 & Hfst & Hsnd & Hlater).
  exists state. split; [exact Hfst|]. rewrite Hsnd.
  assert (Hq : query (callbackWith state) "state" = Some state) by reflexivity.
  split.
  - destruct (proj1 (Hlater (callbackWith state) 599999 eq_refl eq_refl Hq
                       eq_refl eq_refl ltac:(lia)) ltac:(lia))
      as (events & Ht & Hf).
    exists events. split; assumption.
  - rewrite (proj2 (Hlater (callbackWith state) 600000 eq_refl eq_refl Hq
                      eq_refl eq_refl ltac:(lia)) ltac:(lia)).
    reflexivity.
Defined.

Lemma initiation_spares_other_keys_witness :
  stored (snd (fetch sampleParse samplePrint setupPost sampleEnv
                 (sampleWorld tokensStored upstreamGrants))) "spotify_tokens"
  = Some (stringify sampleTokens).
Proof.
  rewrite (proj1 (initiation_spares_other_keys sampleParse samplePrint setupPost
                    sampleEnv (sampleWorld tokensStored upstreamGrants)
                    eq_refl eq_refl eq_refl)).
  vm_compute. reflexivity.
Defined.



Lemma unreadable_record_escapes_catch_witness :
  fst (fetch sampleParse samplePrint healthPlain sampleEnv
         (sampleWorld tokensCorrupt upstreamGrants))
  = Thrown "SyntaxError".
Proof.
  apply (unreadable_record_escapes_catch sampleParse samplePrint healthPlain
           sampleEnv (sampleWorld tokensCorrupt upstreamGrants) EmptyString);
    [discriminate | reflexivity | vm_compute; reflexivity | left; reflexivity].
Defined.

Lemma health_reveals_flags_only_witness :
  exists response,
    fst (fetch sampleParse samplePrint healthPlain sampleEnv
           (sampleWorld tokensStored upstreamGrants)) = Returned response /\
    fst (fetch sampleParse samplePrint healthPlain otherEnv
           (sampleWorld tokensStored upstreamRefuses)) = Returned response /\
    status response = 200.
Proof.
  apply (health_reveals_flags_only sampleParse samplePrint healthPlain sampleEnv
           otherEnv (sampleWorld tokensStored upstreamGrants)
           (sampleWorld tokensStored upstreamRefuses) sampleTokens sampleTokens);
    try (vm_compute; reflexivity); try discriminate.
  repeat apply conj; reflexivity.
Defined.

Lemma only_setup_and_callback_write_witness :
  SPOTIFY_DATA
    (snd (fetch sampleParse samplePrint (bearerRequest "/recent" "key-1234")
            sampleEnv (sampleWorld tokensStored upstreamRefuses)))
  = tokensStored.
Proof.
  apply (only_setup_and_callback_write sampleParse samplePrint
           (bearerRequest "/recent" "key-1234") sampleEnv
           (sampleWorld tokensStored upstreamRefuses)); discriminate.
Defined.

Lemma stored_tokens_last_3600_seconds_witness :
  fst (fetch sampleParse samplePrint (bearerRequest "/now-playing" "key-1234")
         sampleEnv
         (elapse 3600000
            (snd (fetch sampleParse samplePrint callbackXyz sampleEnv
                    (sampleWorld pendingXyz upstreamGrants)))))
  = Returned noTokensResponse.
Proof.
  rewrite (proj2 (stored_tokens_last_3600_seconds sampleParse samplePrint
                    callbackXyz (bearerRequest "/now-playing" "key-1234")
                    sampleEnv sampleEnv (sampleWorld pendingXyz upstreamGrants)
                    sampleTokens "key-1234" 3600000
                    eq_refl eq_refl eq_refl eq_refl eq_refl
                    ltac:(discriminate) eq_refl eq_refl ltac:(discriminate)
                    eq_refl ltac:(lia)) ltac:(lia)).
  reflexivity.
Defined.
